(** * Honcho plugin for Agent Zero: a shallow embedding of the adapter

    The development follows the Python sources

    - [helpers/honcho_helper.py]: configuration, client cache, lazy session
      initialisation, message push with retry, user context with a TTL cache;
    - [extensions/python/agent_init/_20_honcho_init.py]: the init hook;
    - [extensions/python/hist_add_before/_20_honcho_sync.py]: [_extract_content].

    Python objects are an inductive type of values, dictionaries that are
    printed keep their insertion order (association lists), the module-level
    caches are finite maps, floats are IEEE binary64 numbers, and effectful
    functions are state transformers over a [world] that may raise. Calls to
    the [logging] module have no effect on any value and are left out. *)

From Stdlib Require Import ZArith String Ascii List Bool PrimFloat DecimalString.
From stdpp Require Import gmap strings.

Local Open Scope string_scope.
Local Open Scope Z_scope.

(** ** Text: the [str] methods the adapter calls

    A text is a [string] with one element per character, so the characters
    are the code points below 256, and the definitions are Python's on these
    texts. [str.strip] removes the characters of [str.isspace]: 9-13, 28-32,
    133 (next line) and 160 (no-break space). [str.lower] changes the letters
    65-90, 192-214 and 216-222. [str.upper] changes 97-122, 224-246 and
    248-254 and turns 223 (sharp s) into "SS"; the upper case of 181 (micro
    sign) and of 255 is a character above 255, which no [string] holds:
    [upper_below_256] tells the texts without these two. *)

Module Text.

Definition is_space (c : ascii) : bool :=
  let n := N_of_ascii c in
  ((9 <=? n) && (n <=? 13) || (28 <=? n) && (n <=? 32) || (n =? 133) || (n =? 160))%N.

Definition is_empty (s : string) : bool :=
  match s with EmptyString => true | String _ _ => false end.

Fixpoint lstrip (s : string) : string :=
  match s with
  | EmptyString => EmptyString
  | String c s' => if is_space c then lstrip s' else s
  end.

Fixpoint rstrip (s : string) : string :=
  match s with
  | EmptyString => EmptyString
  | String c s' =>
      let r := rstrip s' in
      if is_space c && is_empty r then EmptyString else String c r
  end.

(** [s.strip()] *)
Definition strip (s : string) : string := rstrip (lstrip s).

Definition lower_char (c : ascii) : ascii :=
  let n := N_of_ascii c in
  if ((65 <=? n) && (n <=? 90) || (192 <=? n) && (n <=? 214)
      || (216 <=? n) && (n <=? 222))%N
  then ascii_of_N (n + 32) else c.

Definition upper_char (c : ascii) : string :=
  let n := N_of_ascii c in
  if ((97 <=? n) && (n <=? 122) || (224 <=? n) && (n <=? 246)
      || (248 <=? n) && (n <=? 254))%N
  then String (ascii_of_N (n - 32)) EmptyString
  else if (n =? 223)%N then "SS"
  else String c EmptyString.

Fixpoint map_chars (f : ascii -> ascii) (s : string) : string :=
  match s with
  | EmptyString => EmptyString
  | String c s' => String (f c) (map_chars f s')
  end.

(** [s.lower()] *)
Definition lower : string -> string := map_chars lower_char.

(** [s.upper()] *)
Fixpoint upper (s : string) : string :=
  match s with
  | EmptyString => EmptyString
  | String c s' => upper_char c +:+ upper s'
  end.


Fixpoint all_chars (p : ascii -> bool) (s : string) : bool :=
  match s with
  | EmptyString => true
  | String c s' => p c && all_chars p s'
  end.

Fixpoint any_char (p : ascii -> bool) (s : string) : bool :=
  match s with
  | EmptyString => false
  | String c s' => p c || any_char p s'
  end.


Fixpoint join (sep : string) (l : list string) : string :=
  match l with
  | [] => ""
  | [x] => x
  | x :: rest => x +:+ sep +:+ join sep rest
  end.

(** [s[:n]] for [0 <= n] *)
Definition prefix (n : nat) (s : string) : string := String.substring 0 n s.

(** decimal notation of an integer, as [str(int)] prints it *)
Definition of_Z (z : Z) : string := NilZero.string_of_int (Z.to_int z).

Definition hex_digit (n : N) : ascii :=
  if (n <? 10)%N then ascii_of_N (48 + n) else ascii_of_N (87 + n).

(** the escape [\xhh] *)
Definition hex_escape (c : ascii) : string :=
  let n := N_of_ascii c in
  String "\" (String "x" (String (hex_digit (n / 16)) (String (hex_digit (n mod 16)) ""))).

End Text.

(** ** Python values *)

#[local] Set Warnings "-register-all".


Inductive value : Type :=
| VNone
| VBool (b : bool)
| VInt (z : Z)
| VStr (s : string)
| VBytes (s : string)
| VList (l : list value)
| VDict (d : list (string * value)).

(** [bool(v)] *)
Definition truthy (v : value) : bool :=
  match v with
  | VNone => false
  | VBool b => b
  | VInt z => negb (Z.eqb z 0)
  | VStr s | VBytes s => negb (Text.is_empty s)
  | VList l => match l with [] => false | _ => true end
  | VDict d => match d with [] => false | _ => true end
  end.

(** [a or b] *)
Definition py_or (a b : value) : value := if truthy a then a else b.

(** [v is None] *)
Definition is_None (v : value) : bool := match v with VNone => true | _ => false end.

(** [isinstance(v, str)] and [isinstance(v, dict)] *)
Definition is_str (v : value) : bool := match v with VStr _ => true | _ => false end.
Definition is_dict (v : value) : bool := match v with VDict _ => true | _ => false end.

(** [d.get(k)], [None] when the key is absent *)
Fixpoint dict_get (d : list (string * value)) (k : string) : value :=
  match d with
  | [] => VNone
  | (k', v) :: rest => if String.eqb k' k then v else dict_get rest k
  end.

(** *** [repr] and [str]

    [repr] of a text escapes the quote it chose, the backslash and the
    characters that are not printable: below 32, 127, 128-160 and 173 (for
    [bytes], every byte from 128). *)

Definition quote1 : ascii := "'"%char.
Definition quote2 : ascii := ascii_of_N 34.
Definition backslash : ascii := "\"%char.

Definition is_char (c : ascii) : ascii -> bool := Ascii.eqb c.

(** The quote [repr] chooses: double quotes only for a text that has a single
    quote and no double quote. *)
Definition repr_quote (s : string) : ascii :=
  if Text.any_char (is_char quote1) s && negb (Text.any_char (is_char quote2) s)
  then quote2 else quote1.

Definition escape_char (bytes : bool) (q c : ascii) : string :=
  let n := N_of_ascii c in
  if Ascii.eqb c q || Ascii.eqb c backslash then String backslash (String c "")
  else if (n =? 9)%N then String backslash "t"
  else if (n =? 10)%N then String backslash "n"
  else if (n =? 13)%N then String backslash "r"
  else if ((n <? 32) || (n =? 127) || bytes && (128 <=? n)
           || (128 <=? n) && (n <=? 160) || (n =? 173))%N then Text.hex_escape c
  else String c "".

Fixpoint escape (bytes : bool) (q : ascii) (s : string) : string :=
  match s with
  | EmptyString => EmptyString
  | String c s' => escape_char bytes q c +:+ escape bytes q s'
  end.

Definition repr_text (bytes : bool) (s : string) : string :=
  let q := repr_quote s in
  String q (escape bytes q s +:+ String q "").

Fixpoint py_repr (v : value) : string :=
  match v with
  | VNone => "None"
  | VBool true => "True"
  | VBool false => "False"
  | VInt z => Text.of_Z z
  | VStr s => repr_text false s
  | VBytes s => "b" +:+ repr_text true s
  | VList l => "[" +:+ Text.join ", " (List.map py_repr l) +:+ "]"
  | VDict d =>
      "{" +:+ Text.join ", "
               (List.map (fun kv => match kv with
                                    | (k, x) => repr_text false k +:+ ": " +:+ py_repr x
                                    end) d) +:+ "}"
  end.

(** [str(v)] *)
Definition py_str (v : value) : string :=
  match v with
  | VStr s => s
  | _ => py_repr v
  end.

(** ** History-sync hook: [_extract_content]

    The loop runs while [raw] is a dict and [depth < 10]; [fuel] is the number
    of iterations that are left, [10 - depth]. *)

Definition lookup_chain (d : list (string * value)) : value :=
  py_or (py_or (dict_get d "content") (dict_get d "text")) (dict_get d "message").

(** the statement after the loop *)
Definition extract_final (raw : value) : string :=
  match raw with
  | VStr s => s
  | _ => if truthy raw then py_str raw else ""
  end.

Fixpoint extract_loop (fuel : nat) (raw : value) : string :=
  match fuel, raw with
  | S fuel', VDict d =>
      let extracted := lookup_chain d in
      if is_None extracted then py_str raw
      else extract_loop fuel' extracted
  | _, _ => extract_final raw
  end.

Definition _extract_content (content_data : value) : string :=
  extract_loop 10 content_data.

(** ** Exceptions

    The classes are those the adapter raises or names in a handler;
    [RuntimeError] stands for the errors of the SDK and of the secret store.
    All of them derive from [Exception]: an [except Exception] handler catches
    every [exn]. *)

Inductive exc_class := ValueError | TypeError | AttributeError | ImportError | RuntimeError.

Record exn := Exn { exn_class : exc_class; exn_msg : string }.

Inductive outcome (A : Type) : Type :=
| Ret (a : A)
| Raise (e : exn).

Arguments Ret {A} a.
Arguments Raise {A} e.

Definition exc_class_eqb (a b : exc_class) : bool :=
  match a, b with
  | ValueError, ValueError | TypeError, TypeError | AttributeError, AttributeError
  | ImportError, ImportError | RuntimeError, RuntimeError => true
  | _, _ => false
  end.

(** [except (c1, c2, ...)] and [except Exception] *)
Definition except_classes (cs : list exc_class) (e : exn) : bool :=
  existsb (exc_class_eqb (exn_class e)) cs.

Definition except_Exception (e : exn) : bool := true.

(** ** Constants of [honcho_helper.py] *)

Definition DEFAULT_WORKSPACE_ID : string := "agent-zero".
Definition DEFAULT_USER_ID : string := "user".
Definition CONTEXT_CACHE_TTL : float := 120%float.
Definition MAX_MESSAGE_LENGTH : Z := 10000.
Definition _RETRY_ATTEMPTS : Z := 3.
Definition _RETRY_BASE_DELAY : float := 0.5%float.

(** [range(lo, hi)] *)
Definition py_range (lo hi : Z) : list Z :=
  List.map (fun i => lo + Z.of_nat i) (List.seq 0 (Z.to_nat (hi - lo))).

(** ** The retry decorator

    [_retry fn] is the wrapper the decorator returns, for a wrapped function
    [fn] that acts on a state [St] and returns or raises. [sleep] is what
    [time.sleep] does to that state. Beside its result the wrapper yields the
    sequence of the calls it made: [Invoke] for a call of [fn] with the
    wrapper's arguments and [Sleep d] for [time.sleep(d)]. *)

Inductive action := Invoke | Sleep (delay : float).

Section Retry.

Context {St A : Type}.
Variable sleep : float -> St -> St.
Variable fn : St -> outcome A * St.

(** [raise last_exc] after the loop; [raise None] is a [TypeError] *)
Definition raise_last (last_exc : option exn) : outcome A :=
  match last_exc with
  | Some e => Raise e
  | None => Raise (Exn TypeError "exceptions must derive from BaseException")
  end.

Fixpoint retry_loop (attempts : list Z) (last_exc : option exn) (delay : float)
         (s : St) : outcome A * St * list action :=
  match attempts with
  | [] => (raise_last last_exc, s, [])
  | attempt :: rest =>
      match fn s with
      | (Ret a, s1) => (Ret a, s1, [Invoke])
      | (Raise exc, s1) =>
          if attempt <? _RETRY_ATTEMPTS then
            let '(r, s2, acts) :=
              retry_loop rest (Some exc) (PrimFloat.mul delay 2%float) (sleep delay s1) in
            (r, s2, Invoke :: Sleep delay :: acts)
          else
            let '(r, s2, acts) := retry_loop rest (Some exc) delay s1 in
            (r, s2, Invoke :: acts)
      end
  end.

Definition _retry (s : St) : outcome A * St * list action :=
  retry_loop (py_range 1 (_RETRY_ATTEMPTS + 1)) None _RETRY_BASE_DELAY s.

End Retry.

(** ** Validation *)

Definition type_name (v : value) : string :=
  match v with
  | VNone => "NoneType"
  | VBool _ => "bool"
  | VInt _ => "int"
  | VStr _ => "str"
  | VBytes _ => "bytes"
  | VList _ => "list"
  | VDict _ => "dict"
  end.

Definition in_roles (role : string) : bool :=
  String.eqb role "user" || String.eqb role "assistant".

(** [role.strip().lower()] exists for [str] and for [bytes]; a [bytes] object
    is never equal to a [str], so it is not in the tuple; the other types
    have no attribute [strip]. *)
Definition _validate_role (role : value) : outcome string :=
  match role with
  | VStr s =>
      let role := Text.lower (Text.strip s) in
      if negb (in_roles role)
      then Raise (Exn ValueError ("Invalid message role: " +:+ py_repr (VStr role)))
      else Ret role
  | VBytes b => Raise (Exn ValueError "Invalid message role")
  | _ =>
      Raise (Exn AttributeError
               ("'" +:+ type_name role +:+ "' object has no attribute 'strip'"))
  end.

Definition _validate_content (content : value) : outcome string :=
  match content with
  | VStr s =>
      let content := Text.strip s in
      if Text.is_empty content
      then Raise (Exn ValueError "content must not be empty")
      else Ret content
  | _ => Raise (Exn TypeError ("content must be a string, got " +:+ type_name content))
  end.


(** ** The world of the helper module

    The SDK objects are handles: a client knows its key and workspace, a
    session and a peer their identifiers. Every call that leaves the module
    (secret store, SDK, [time.sleep]) is recorded in the [trace], in order.
    What the remote service answers may depend on everything that happened
    before, so each SDK operation reads its answer from a function of the
    trace so far: [None] is a normal return, [Some e] raises [e]. The [clock]
    is the time that [time.time()] reads; [time.sleep] moves it forward. *)

Record client := Client { client_api_key : string; client_workspace_id : string }.

Record remote_context :=
  RemoteContext { summary : option string; peer_representation : option string }.

Inductive event :=
| LoadSecrets
| NewClient (workspace_id : string)
| ClientSession (session_id : string)
| ClientPeer (peer_id : string)
| AddPeers (session_id : string) (peers : list string)
| PeerMessage (peer_id content : string)
| AddMessages (session_id : string) (messages : list (string * string))
| GetContext (session_id : string)
| TimeSleep (delay : float).

Record remote := {
  honcho_new : list event -> string -> string -> option exn;
  client_session : list event -> string -> option exn;
  client_peer : list event -> string -> option exn;
  session_add_peers : list event -> string -> list string -> option exn;
  peer_message : list event -> string -> string -> option exn;
  session_add_messages : list event -> string -> list (string * string) -> option exn;
  session_context : list event -> string -> outcome remote_context
}.

(** The host's context object: its identity [id(context)], its attribute
    [id] when it has one, and the side-channel dict [_honcho] when attached. *)
Record AgentContext := {
  context_addr : Z;
  context_id : option value;
  _honcho : option (gmap string value)
}.

(** What importing [honcho_helper.py] from its path gives, for the init hook:
    no spec or loader, a module, or an exception while it executes. *)
Inductive helper_spec := NoSpec | Loads | LoadFails (e : exn).

Record world := {
  HONCHO_AVAILABLE : bool;
  secrets : outcome (gmap string string);
  sdk : remote;
  helper_file : helper_spec;
  clock : float;
  _client_cache : gmap string client;
  _context_cache : gmap string (float * option string);
  context : AgentContext;
  trace : list event
}.

Definition set_clock (t : float) (w : world) : world :=
  {| HONCHO_AVAILABLE := HONCHO_AVAILABLE w; secrets := secrets w; sdk := sdk w;
     helper_file := helper_file w; clock := t;
     _client_cache := _client_cache w; _context_cache := _context_cache w;
     context := context w; trace := trace w |}.

Definition set_client_cache (c : gmap string client) (w : world) : world :=
  {| HONCHO_AVAILABLE := HONCHO_AVAILABLE w; secrets := secrets w; sdk := sdk w;
     helper_file := helper_file w; clock := clock w;
     _client_cache := c; _context_cache := _context_cache w;
     context := context w; trace := trace w |}.

Definition set_context_cache (c : gmap string (float * option string)) (w : world) : world :=
  {| HONCHO_AVAILABLE := HONCHO_AVAILABLE w; secrets := secrets w; sdk := sdk w;
     helper_file := helper_file w; clock := clock w;
     _client_cache := _client_cache w; _context_cache := c;
     context := context w; trace := trace w |}.

Definition set_context (c : AgentContext) (w : world) : world :=
  {| HONCHO_AVAILABLE := HONCHO_AVAILABLE w; secrets := secrets w; sdk := sdk w;
     helper_file := helper_file w; clock := clock w;
     _client_cache := _client_cache w; _context_cache := _context_cache w;
     context := c; trace := trace w |}.

Definition set_trace (t : list event) (w : world) : world :=
  {| HONCHO_AVAILABLE := HONCHO_AVAILABLE w; secrets := secrets w; sdk := sdk w;
     helper_file := helper_file w; clock := clock w;
     _client_cache := _client_cache w; _context_cache := _context_cache w;
     context := context w; trace := t |}.

Definition set_honcho (h : gmap string value) (c : AgentContext) : AgentContext :=
  {| context_addr := context_addr c; context_id := context_id c; _honcho := Some h |}.

(** ** Computations that act on the world and may raise *)

Definition M (A : Type) : Type := world -> outcome A * world.

Definition ret {A} (a : A) : M A := fun w => (Ret a, w).

Definition raise {A} (e : exn) : M A := fun w => (Raise e, w).

Definition bind {A B} (m : M A) (k : A -> M B) : M B :=
  fun w =>
    match m w with
    | (Ret a, w1) => k a w1
    | (Raise e, w1) => (Raise e, w1)
    end.

(** [try: m  except <caught> as e: handler e] *)
Definition try_except {A} (m : M A) (caught : exn -> bool) (handler : exn -> M A) : M A :=
  fun w =>
    match m w with
    | (Ret a, w1) => (Ret a, w1)
    | (Raise e, w1) => if caught e then handler e w1 else (Raise e, w1)
    end.

Definition lift {A} (r : outcome A) : M A := fun w => (r, w).

Definition read {A} (f : world -> A) : M A := fun w => (Ret (f w), w).

Definition modify (f : world -> world) : M unit := fun w => (Ret tt, f w).

Declare Scope py_scope.
Delimit Scope py_scope with py.
Notation "x <- m ;; k" := (bind m (fun x => k))
  (at level 100, m at next level, right associativity) : py_scope.
Notation "m ;; k" := (bind m (fun _ => k))
  (at level 100, right associativity) : py_scope.
Local Open Scope py_scope.

Definition emit (e : event) : M unit := modify (fun w => set_trace (trace w ++ [e]) w).

(** An SDK call: recorded, and answered from the trace before it. *)
Definition sdk_call (e : event) (answer : remote -> list event -> option exn) : M unit :=
  fun w =>
    match answer (sdk w) (trace w) with
    | None => (Ret tt, set_trace (trace w ++ [e]) w)
    | Some exc => (Raise exc, set_trace (trace w ++ [e]) w)
    end.

(** [time.time()] and [time.sleep(d)] *)
Definition time_time : M float := read clock.

Definition sleep (d : float) (w : world) : world :=
  set_clock (PrimFloat.add (clock w) d) (set_trace (trace w ++ [TimeSleep d]) w).

(** ** Configuration *)

(** [get_secrets_manager(context).load_secrets()] *)
Definition load_secrets : M (gmap string string) :=
  fun w => (secrets w, set_trace (trace w ++ [LoadSecrets]) w).

(** [value or None] and [value or default] on a text *)
Definition or_none (s : string) : option string :=
  if Text.is_empty s then None else Some s.

Definition get_api_key : M (option string) :=
  try_except
    (secrets <- load_secrets ;;
     let value := Text.strip (default "" (secrets !! "HONCHO_API_KEY")) in
     ret (or_none value))
    except_Exception
    (fun _ => ret None).

Definition get_config_value (key default_ : string) : M string :=
  if Text.is_empty key then ret default_ else
  try_except
    (secrets <- load_secrets ;;
     ret (default default_ (or_none (Text.strip (default "" (secrets !! Text.upper key))))))
    except_Exception
    (fun _ => ret default_).

Definition is_configured : M bool :=
  available <- read HONCHO_AVAILABLE ;;
  if negb available then ret false else
  api_key <- get_api_key ;;
  ret (match api_key with Some _ => true | None => false end).

(** ** Client management *)

(** the constructor [Honcho(api_key=..., workspace_id=...)] *)
Definition Honcho (api_key workspace_id : string) : M client :=
  sdk_call (NewClient workspace_id) (fun r tr => honcho_new r tr api_key workspace_id) ;;
  ret (Client api_key workspace_id).

Definition get_client : M (option client) :=
  available <- read HONCHO_AVAILABLE ;;
  if negb available then ret None else
  api_key <- get_api_key ;;
  match api_key with
  | None => ret None
  | Some api_key =>
      workspace_id <- get_config_value "HONCHO_WORKSPACE_ID" DEFAULT_WORKSPACE_ID ;;
      cache <- read _client_cache ;;
      match cache !! workspace_id with
      | Some c => ret (Some c)
      | None =>
          try_except
            (c <- Honcho api_key workspace_id ;;
             modify (fun w => set_client_cache (<[workspace_id := c]> (_client_cache w)) w) ;;
             ret (Some c))
            except_Exception
            (fun _ => ret None)
      end
  end.

(** ** Session and user *)

Definition get_session_id (ctx : AgentContext) : string :=
  match context_id ctx with
  | Some i =>
      if truthy i then "chat-" +:+ py_str i
      else "session-" +:+ Text.of_Z (context_addr ctx)
  | None => "session-" +:+ Text.of_Z (context_addr ctx)
  end.

Definition get_user_id : M string := get_config_value "HONCHO_USER_ID" DEFAULT_USER_ID.

(** SDK methods; a session and a peer are named by their identifiers *)
Definition session_of (session_id : string) : M string :=
  sdk_call (ClientSession session_id) (fun r tr => client_session r tr session_id) ;;
  ret session_id.

Definition peer_of (peer_id : string) : M string :=
  sdk_call (ClientPeer peer_id) (fun r tr => client_peer r tr peer_id) ;;
  ret peer_id.

Definition add_peers (session : string) (peers : list string) : M unit :=
  sdk_call (AddPeers session peers) (fun r tr => session_add_peers r tr session peers).

Definition message_of (peer content : string) : M (string * string) :=
  sdk_call (PeerMessage peer content) (fun r tr => peer_message r tr peer content) ;;
  ret (peer, content).

Definition add_messages (session : string) (msgs : list (string * string)) : M unit :=
  sdk_call (AddMessages session msgs) (fun r tr => session_add_messages r tr session msgs).

Definition context_of (session : string) : M remote_context :=
  fun w => (session_context (sdk w) (trace w) session,
            set_trace (trace w ++ [GetContext session]) w).

(** ** Lazy initialisation *)

(** [hasattr(context, "_honcho") and context._honcho.get("enabled")] *)
Definition honcho_enabled (ctx : AgentContext) : bool :=
  match _honcho ctx with
  | Some h => truthy (default VNone (h !! "enabled"))
  | None => false
  end.

(** [context._honcho[k] = v] *)
Definition honcho_setitem (k : string) (v : value) : M unit :=
  fun w =>
    match _honcho (context w) with
    | Some h => (Ret tt, set_context (set_honcho (<[k := v]> h) (context w)) w)
    | None => (Raise (Exn AttributeError "object has no attribute '_honcho'"), w)
    end.

(** [if not hasattr(context, "_honcho"): context._honcho = {}] *)
Definition honcho_attach : M unit :=
  modify (fun w =>
            match _honcho (context w) with
            | Some _ => w
            | None => set_context (set_honcho ∅ (context w)) w
            end).

Definition ensure_initialized : M bool :=
  ctx <- read context ;;
  if honcho_enabled ctx then ret true else
  configured <- is_configured ;;
  if negb configured then ret false else
  cl <- get_client ;;
  match cl with
  | None => ret false
  | Some _ =>
      honcho_attach ;;
      let session_id := get_session_id ctx in
      try_except
        (session <- session_of session_id ;;
         user_id <- get_user_id ;;
         user_peer <- peer_of user_id ;;
         agent_peer <- peer_of "agent-zero" ;;
         try_except (add_peers session [user_peer; agent_peer])
                    except_Exception (fun _ => ret tt) ;;
         honcho_setitem "enabled" (VBool true) ;;
         honcho_setitem "session_id" (VStr session_id) ;;
         ret true)
        except_Exception
        (fun _ => honcho_setitem "enabled" (VBool false) ;; ret false)
  end.

(** ** Message sync *)

(** the body of [_push_message], before decoration *)
Definition push_message_body (session_id peer content : string) : M unit :=
  session <- session_of session_id ;;
  msg <- message_of peer (Text.prefix (Z.to_nat MAX_MESSAGE_LENGTH) content) ;;
  add_messages session [msg].

(** [@_retry def _push_message] *)
Definition _push_message (session_id peer content : string) : M unit :=
  fun w => fst (_retry sleep (push_message_body session_id peer content) w).

Definition sync_message (role content : value) : M bool :=
  validated <-
    try_except
      (role <- lift (_validate_role role) ;;
       content <- lift (_validate_content content) ;;
       ret (Some (role, content)))
      (except_classes [ValueError; TypeError])
      (fun _ => ret None) ;;
  match validated with
  | None => ret false
  | Some (role, content) =>
      initialized <- ensure_initialized ;;
      if negb initialized then ret false else
      cl <- get_client ;;
      match cl with
      | None => ret false
      | Some _ =>
          try_except
            (ctx <- read context ;;
             let session_id := get_session_id ctx in
             user_id <- get_user_id ;;
             peer <- peer_of (if String.eqb role "user" then user_id else "agent-zero") ;;
             _push_message session_id peer content ;;
             ret true)
            except_Exception
            (fun _ => ret false)
      end
  end.

(** ** User context retrieval *)

(** [isinstance(v, int)] ([bool] is a subclass of [int]) and the integer *)
Definition is_int (v : value) : bool :=
  match v with VInt _ | VBool _ => true | _ => false end.

Definition int_of (v : value) : Z :=
  match v with
  | VInt z => z
  | VBool true => 1
  | _ => 0
  end.

(** an attribute that is there and truthy: [hasattr(ctx, a) and ctx.a] *)
Definition attr_truthy (a : option string) : option string :=
  match a with
  | Some s => or_none s
  | None => None
  end.

(** the summary-like field of the remote context *)
Definition context_result (ctx : remote_context) : option string :=
  match attr_truthy (summary ctx) with
  | Some s => Some s
  | None => attr_truthy (peer_representation ctx)
  end.

(** the first statement of [get_user_context]:
    [if not isinstance(max_tokens, int) or max_tokens < 1: max_tokens = 500] *)
Definition sanitize_max_tokens (max_tokens : value) : value :=
  if negb (is_int max_tokens) || (int_of max_tokens <? 1) then VInt 500 else max_tokens.

Definition get_user_context (max_tokens : value) : M (option string) :=
  let max_tokens := sanitize_max_tokens max_tokens in
  initialized <- ensure_initialized ;;
  if negb initialized then ret None else
  ctx <- read context ;;
  let session_id := get_session_id ctx in
  cache <- read _context_cache ;;
  hit <- match cache !! session_id with
         | Some (cached_time, cached_ctx) =>
             now <- time_time ;;
             ret (if PrimFloat.ltb (PrimFloat.sub now cached_time) CONTEXT_CACHE_TTL
                  then Some cached_ctx else None)
         | None => ret None
         end ;;
  match hit with
  | Some cached_ctx => ret cached_ctx
  | None =>
      cl <- get_client ;;
      match cl with
      | None => ret None
      | Some _ =>
          try_except
            (session <- session_of session_id ;;
             rctx <- context_of session ;;
             let result := context_result rctx in
             now <- time_time ;;
             modify (fun w => set_context_cache
                                (<[session_id := (now, result)]> (_context_cache w)) w) ;;
             ret result)
            except_Exception
            (fun _ => ret None)
      end
  end.

(** ** Init hook

    [_load_helper] executes the helper file as a new module each time: the
    module-level caches the hook sees start empty and are dropped with the
    module when [execute] returns. *)

Module HonchoInit.

(** [true] for a module, [false] for [None] *)
Definition _load_helper : M bool :=
  fun w =>
    match helper_file w with
    | NoSpec => (Ret false, w)
    | Loads => (Ret true, w)
    | LoadFails e => (Raise e, w)
    end.

Definition in_new_module {A} (m : M A) : M A :=
  fun w =>
    let '(r, w1) := m (set_context_cache ∅ (set_client_cache ∅ w)) in
    (r, set_context_cache (_context_cache w) (set_client_cache (_client_cache w) w1)).

Definition execute : M unit :=
  try_except
    (helper <- _load_helper ;;
     if negb helper then ret tt else
     in_new_module
       (configured <- is_configured ;;
        if negb configured then ret tt else
        cl <- get_client ;;
        match cl with
        | None => ret tt
        | Some _ =>
            ctx <- read context ;;
            let session_id := get_session_id ctx in
            honcho_attach ;;
            honcho_setitem "enabled" (VBool true) ;;
            honcho_setitem "session_id" (VStr session_id)
        end))
    except_Exception
    (fun _ => ret tt).

End HonchoInit.

(** ** Definitions used in the statements *)

(** A function that fails at every call, on a state that counts the calls. *)
Definition always_down (calls : nat) : outcome unit * nat :=
  (Raise (Exn RuntimeError "service down"), S calls).

(** A function that fails once and then returns: two calls, one sleep. *)
Definition down_once (calls : nat) : outcome nat * nat :=
  match calls with
  | O => (Raise (Exn RuntimeError "timeout"), 1%nat)
  | S _ => (Ret calls, S calls)
  end.

(** The key that [get_api_key] resolves from what the secret store gives. *)
Definition resolved_key (s : outcome (gmap string string)) : option string :=
  match s with
  | Ret m => or_none (Text.strip (default "" (m !! "HONCHO_API_KEY")))
  | Raise _ => None
  end.

Definition config_value (key default_ : string) (s : outcome (gmap string string)) : string :=
  match s with
  | Ret m => default default_ (or_none (Text.strip (default "" (m !! Text.upper key))))
  | Raise _ => default_
  end.

(** the world after one read of the secret store *)
Definition secrets_read (w : world) : world := set_trace (trace w ++ [LoadSecrets]) w.

Definition has_key (k : option string) : bool :=
  match k with Some _ => true | None => false end.


(** the entry of the secret store that holds the key, if the store answers *)
Definition api_key_entry (w : world) : option string :=
  match secrets w with
  | Ret m => m !! "HONCHO_API_KEY"
  | Raise _ => None
  end.

(** [hasattr(v, "strip")] *)
Definition has_strip (v : value) : bool :=
  match v with VStr _ | VBytes _ => true | _ => false end.

(** A remote service that accepts every call and has a summary. *)
Definition remote_up : remote :=
  {| honcho_new := fun _ _ _ => None;
     client_session := fun _ _ => None;
     client_peer := fun _ _ => None;
     session_add_peers := fun _ _ _ => None;
     peer_message := fun _ _ _ => None;
     session_add_messages := fun _ _ _ => None;
     session_context := fun _ _ => Ret (RemoteContext (Some "Likes Python") None) |}.

(** A remote service whose sessions cannot be reached. *)
Definition remote_down : remote :=
  {| honcho_new := fun _ _ _ => None;
     client_session := fun _ _ => Some (Exn RuntimeError "connection refused");
     client_peer := fun _ _ => None;
     session_add_peers := fun _ _ _ => None;
     peer_message := fun _ _ _ => None;
     session_add_messages := fun _ _ _ => None;
     session_context := fun _ _ => Raise (Exn RuntimeError "connection refused") |}.

Definition chat7 : AgentContext :=
  {| context_addr := 140012; context_id := Some (VStr "7"); _honcho := None |}.

Definition chat7_enabled : AgentContext :=
  set_honcho (<["session_id" := VStr "chat-7"]> (<["enabled" := VBool true]> ∅)) chat7.

(** A configured installation at time 1000, nothing cached. *)
Definition world_configured : world :=
  {| HONCHO_AVAILABLE := true;
     secrets := Ret (<["HONCHO_API_KEY" := " hc_key "]> ∅);
     sdk := remote_up;
     helper_file := Loads;
     clock := 1000%float;
     _client_cache := ∅;
     _context_cache := ∅;
     context := chat7;
     trace := [] |}.

(** The same installation with an empty secret store. *)
Definition world_no_key : world :=
  {| HONCHO_AVAILABLE := true;
     secrets := Ret ∅;
     sdk := remote_up;
     helper_file := Loads;
     clock := 1000%float;
     _client_cache := ∅;
     _context_cache := ∅;
     context := chat7;
     trace := [] |}.

(** What a computation leaves as it was: the installation (SDK flag, secret
    store, remote service, helper file), the clock, the context cache and the
    identity of the context. *)
Record stable (w w' : world) : Prop := {
  stable_available : HONCHO_AVAILABLE w' = HONCHO_AVAILABLE w;
  stable_secrets : secrets w' = secrets w;
  stable_sdk : sdk w' = sdk w;
  stable_helper : helper_file w' = helper_file w;
  stable_clock : clock w' = clock w;
  stable_context_cache : _context_cache w' = _context_cache w;
  stable_id : context_id (context w') = context_id (context w);
  stable_addr : context_addr (context w') = context_addr (context w)
}.

(** [m] keeps the relation [P] between the world before and after it. *)
Definition preserves (P : world -> world -> Prop) {A} (m : M A) : Prop :=
  forall w, P w (snd (m w)).

(** only the trace differs *)
Definition same_but_trace (w w' : world) : Prop := w' = set_trace (trace w') w.

(** the [try] block of [get_user_context]: query the session, keep the result *)
Definition fetch_and_cache (session_id : string) : M (option string) :=
  try_except
    (session <- session_of session_id ;;
     rctx <- context_of session ;;
     let result := context_result rctx in
     now <- time_time ;;
     modify (fun w => set_context_cache
                        (<[session_id := (now, result)]> (_context_cache w)) w) ;;
     ret result)
    except_Exception
    (fun _ => ret None).

(** the remote query of that block: [client.session(id)] and [session.context()] *)
Definition remote_query (session_id : string) : M remote_context :=
  session <- session_of session_id ;;
  context_of session.

(** the cache check of [get_user_context]: the entry, when it is there and
    younger than the TTL at the clock's time *)
Definition cache_hit (session_id : string) (w : world) : option (option string) :=
  match _context_cache w !! session_id with
  | Some (cached_time, cached_ctx) =>
      if PrimFloat.ltb (PrimFloat.sub (clock w) cached_time) CONTEXT_CACHE_TTL
      then Some cached_ctx else None
  | None => None
  end.

(** a call on the remote session: [client.session(id)] or [session.context()] *)
Definition is_session_call (e : event) : bool :=
  match e with
  | ClientSession _ | GetContext _ => true
  | _ => false
  end.

(** an event that reaches the remote service *)
Definition is_remote (e : event) : bool :=
  match e with
  | LoadSecrets | TimeSleep _ => false
  | _ => true
  end.

Definition world_enabled : world := set_context chat7_enabled world_configured.

(** The context is marked enabled and has a cached summary from time 100, but
    the key has since been removed from the secret store. *)
Definition world_key_removed : world :=
  set_context_cache (<["chat-7" := (100%float, Some "Likes Python")]> ∅)
    (set_context chat7_enabled world_no_key).

(** Enabled, with a summary cached at time 950 (the clock is at 1000). *)
Definition world_cached : world :=
  set_context_cache (<["chat-7" := (950%float, Some "Likes Python")]> ∅) world_enabled.

(** Enabled, with a summary cached at time 100: 900 s old. *)
Definition world_expired : world :=
  set_context_cache (<["chat-7" := (100%float, Some "Likes tea")]> ∅) world_enabled.

(** A remote service on which a client cannot be constructed. *)
Definition remote_no_client : remote :=
  {| honcho_new := fun _ _ _ => Some (Exn RuntimeError "invalid API key");
     client_session := fun _ _ => None;
     client_peer := fun _ _ => None;
     session_add_peers := fun _ _ _ => None;
     peer_message := fun _ _ _ => None;
     session_add_messages := fun _ _ _ => None;
     session_context := fun _ _ => Ret (RemoteContext (Some "Likes Python") None) |}.

(** A remote service whose context has neither field set. *)
Definition remote_blank : remote :=
  {| honcho_new := fun _ _ _ => None;
     client_session := fun _ _ => None;
     client_peer := fun _ _ => None;
     session_add_peers := fun _ _ _ => None;
     peer_message := fun _ _ _ => None;
     session_add_messages := fun _ _ _ => None;
     session_context := fun _ _ => Ret (RemoteContext None (Some "")) |}.

Definition with_sdk (r : remote) (w : world) : world :=
  {| HONCHO_AVAILABLE := HONCHO_AVAILABLE w; secrets := secrets w; sdk := r;
     helper_file := helper_file w; clock := clock w;
     _client_cache := _client_cache w; _context_cache := _context_cache w;
     context := context w; trace := trace w |}.

(** Enabled, with an expired entry, and the constructor of the client fails. *)
Definition world_no_client : world := with_sdk remote_no_client world_expired.

(** ** The rest of the helper module *)

From Stdlib Require Import DecimalPos DecimalZ.

Definition LOG_CONTENT_PREVIEW : Z := 80.

Definition ellipsis : string :=
  String (ascii_of_N 226) (String (ascii_of_N 128) (String (ascii_of_N 166) "")).

(** the mark [_truncate] appends: an ellipsis and [[truncated]] *)
Definition truncated_mark : string := ellipsis +:+ "[truncated]".

(** [_truncate(text, limit)], for [0 <= limit] *)
Definition _truncate (text : string) (limit : nat) : string :=
  if (String.length text <=? limit)%nat then text
  else Text.prefix limit text +:+ truncated_mark.

(** [clear_context_cache(session_id)]: a truthy [session_id] is popped, with
    [None] or the empty text the cache is replaced by an empty dict. *)
Definition clear_context_cache (session_id : option string) : M unit :=
  match attr_truthy session_id with
  | Some sid => modify (fun w => set_context_cache (delete sid (_context_cache w)) w)
  | None => modify (fun w => set_context_cache ∅ w)
  end.

(** ** The hooks that keep the helper module

    [_20_honcho_sync.py] and [_30_honcho_context.py] load the helper once and
    keep it in their global [_helper_module]. A hook is that global (set or
    [None]) with the world of the helper module it holds; loading executes the
    helper file, whose caches start empty. *)

Record hook := Hook { _helper_module : bool; helper_world : world }.

Definition _get_helper (h : hook) : bool * hook :=
  if _helper_module h then (true, h)
  else
    match helper_file (helper_world h) with
    | Loads =>
        (true, Hook true (set_context_cache ∅ (set_client_cache ∅ (helper_world h))))
    | NoSpec | LoadFails _ => (false, h)
    end.

(** a computation of the helper module, run on the hook's world *)
Definition in_helper {A} (m : M A) (h : hook) : outcome A * hook :=
  let '(r, w) := m (helper_world h) in (r, Hook (_helper_module h) w).

(** [kwargs.get(k, default)] *)
Fixpoint kwargs_get (kwargs : list (string * value)) (k : string) (default_ : value) : value :=
  match kwargs with
  | [] => default_
  | (k', v) :: rest => if String.eqb k' k then v else kwargs_get rest k default_
  end.

Module HonchoSync.

Definition execute (kwargs : list (string * value)) (h : hook) : outcome unit * hook :=
  let content_data := kwargs_get kwargs "content_data" (VDict []) in
  let ai := kwargs_get kwargs "ai" (VBool false) in
  let content := Text.strip (_extract_content content_data) in
  if Text.is_empty content then (Ret tt, h) else
  let role := if truthy ai then "assistant" else "user" in
  let '(helper, h1) := _get_helper h in
  if negb helper then (Ret tt, h1) else
  match in_helper (sync_message (VStr role) (VStr content)) h1 with
  | (Ret success, h2) => (Ret tt, h2)
  | (Raise exc, h2) => if except_Exception exc then (Ret tt, h2) else (Raise exc, h2)
  end.

End HonchoSync.

Module HonchoContext.

Definition newline : string := String (ascii_of_N 10) "".

(** [_CONTEXT_TEMPLATE], before and after the field [{context}] *)
Definition template_head : string :=
  newline +:+ newline +:+
  "# Honcho User Context" +:+ newline +:+
  "- Persistent memory about the user from previous conversations." +:+ newline +:+
  "- Use this information to personalise responses." +:+ newline +:+
  newline +:+
  "<honcho_context>" +:+ newline.

Definition template_tail : string := newline +:+ "</honcho_context>" +:+ newline.

(** [_CONTEXT_TEMPLATE.format(context=c)] *)
Definition format_template (c : string) : string := template_head +:+ c +:+ template_tail.

Definition execute (h : hook) : outcome string * hook :=
  let '(helper, h1) := _get_helper h in
  if negb helper then (Ret "", h1) else
  match in_helper (get_user_context (VInt 500)) h1 with
  | (Ret user_context, h2) =>
      match attr_truthy user_context with
      | Some c =>
          if negb (Text.is_empty (Text.strip c))
          then (Ret (format_template (Text.strip c)), h2)
          else (Ret "", h2)
      | None => (Ret "", h2)
      end
  | (Raise exc, h2) => if except_Exception exc then (Ret "", h2) else (Raise exc, h2)
  end.

End HonchoContext.

(** ** Definitions used in the further statements *)

Definition no_break_space : string := String (ascii_of_N 160) "".
Definition next_line : string := String (ascii_of_N 133) "".

Definition starts_with_space (s : string) : bool :=
  match s with
  | EmptyString => false
  | String c _ => Text.is_space c
  end.

Fixpoint ends_with_space (s : string) : bool :=
  match s with
  | EmptyString => false
  | String c EmptyString => Text.is_space c
  | String _ s' => ends_with_space s'
  end.

(** the message texts an event carries to the remote service *)
Definition event_texts (e : event) : list string :=
  match e with
  | PeerMessage _ content => [content]
  | AddMessages _ msgs => List.map snd msgs
  | _ => []
  end.

(** no message text in the trace is longer than [MAX_MESSAGE_LENGTH] *)
Definition capped (tr : list event) : Prop :=
  Forall (fun e => Forall (fun s => (String.length s <= Z.to_nat MAX_MESSAGE_LENGTH)%nat)
                          (event_texts e)) tr.

(** the events of a trace that reach the remote service *)
Definition remote_events (tr : list event) : list event := List.filter is_remote tr.

(** the context's own identifier, when it has a truthy one *)
Definition conversation_id (ctx : AgentContext) : option value :=
  match context_id ctx with
  | Some i => if truthy i then Some i else None
  | None => None
  end.

(** [v] under [n] dicts of the one key [k]: [{k: {k: ... v}}] *)
Fixpoint wrap (k : string) (n : nat) (v : value) : value :=
  match n with
  | O => v
  | S n' => VDict [(k, wrap k n' v)]
  end.

Definition is_content_key (k : string) : Prop :=
  k = "content" \/ k = "text" \/ k = "message".

(** the workspace that [get_client] resolves *)
Definition workspace_of (w : world) : string :=
  config_value "HONCHO_WORKSPACE_ID" DEFAULT_WORKSPACE_ID (secrets w).

(** A client was built with a key that is no longer the one in the store. *)
Definition world_rotated_key : world :=
  set_client_cache (<["agent-zero" := Client "old_key" "agent-zero"]> ∅) world_configured.

(** the context has the side-channel dict *)
Definition has_honcho (w : world) : Prop := _honcho (context w) <> None.

(** [m] does not detach the side-channel dict *)
Definition keeps_honcho (w w' : world) : Prop := has_honcho w -> has_honcho w'.

(** [m] leaves the context object as it is *)
Definition same_context (w w' : world) : Prop := context w' = context w.

(** [w'] is [w] after more events, each of them in [Q] *)
Definition appends (Q : event -> Prop) (w w' : world) : Prop :=
  exists tr, trace w' = (trace w ++ tr)%list /\ Forall Q tr.

(** the event carries no message text *)
Definition no_text (e : event) : Prop := event_texts e = [].

(** the message texts of the event have at most [MAX_MESSAGE_LENGTH] characters *)
Definition texts_capped (e : event) : Prop :=
  Forall (fun s => (String.length s <= Z.to_nat MAX_MESSAGE_LENGTH)%nat) (event_texts e).

(** the world of a helper module that has just been executed: empty caches *)
Definition new_module (w : world) : world :=
  set_context_cache ∅ (set_client_cache ∅ w).

(** the text and the role that the history-sync hook takes from its arguments *)
Definition hook_content (kwargs : list (string * value)) : string :=
  Text.strip (_extract_content (kwargs_get kwargs "content_data" (VDict []))).

Definition hook_role (kwargs : list (string * value)) : string :=
  if truthy (kwargs_get kwargs "ai" (VBool false)) then "assistant" else "user".

(** A hook that has not loaded the helper yet, in a configured installation
    whose context is enabled. *)
Definition hook_fresh : hook := Hook false world_enabled.

(** A hook whose helper holds a cached summary of only whitespace. *)
Definition hook_blank_summary : hook :=
  Hook true (set_context_cache (<["chat-7" := (950%float, Some "  ")]> ∅) world_enabled).

Definition with_helper_file (f : helper_spec) (w : world) : world :=
  {| HONCHO_AVAILABLE := HONCHO_AVAILABLE w; secrets := secrets w; sdk := sdk w;
     helper_file := f; clock := clock w;
     _client_cache := _client_cache w; _context_cache := _context_cache w;
     context := context w; trace := trace w |}.

(** the world after more events *)
Definition logged (evs : list event) (w : world) : world :=
  set_trace (trace w ++ evs) w.

(** A remote service on which no call of a message push fails. *)
Definition remote_accepts (r : remote) : Prop :=
  (forall tr s, client_session r tr s = None) /\
  (forall tr p, client_peer r tr p = None) /\
  (forall tr p t, peer_message r tr p t = None) /\
  (forall tr s msgs, session_add_messages r tr s msgs = None).

(** A remote service on which [add_messages] always raises [e]. *)
Definition remote_rejects_messages (r : remote) (e : exn) : Prop :=
  (forall tr s, client_session r tr s = None) /\
  (forall tr p, client_peer r tr p = None) /\
  (forall tr p t, peer_message r tr p t = None) /\
  (forall tr s msgs, session_add_messages r tr s msgs = Some e).

(** the SDK calls of one attempt of [_push_message] *)
Definition push_events (session_id peer content : string) : list event :=
  let text := Text.prefix (Z.to_nat MAX_MESSAGE_LENGTH) content in
  [ClientSession session_id; PeerMessage peer text; AddMessages session_id [(peer, text)]].

(** the peer [sync_message] writes as *)
Definition peer_for (role : string) (w : world) : string :=
  if String.eqb role "user"
  then config_value "HONCHO_USER_ID" DEFAULT_USER_ID (secrets w)
  else "agent-zero".

(** A remote service that takes sessions and peers but no message. *)
Definition remote_full : remote :=
  {| honcho_new := fun _ _ _ => None;
     client_session := fun _ _ => None;
     client_peer := fun _ _ => None;
     session_add_peers := fun _ _ _ => None;
     peer_message := fun _ _ _ => None;
     session_add_messages := fun _ _ _ => Some (Exn RuntimeError "quota exceeded");
     session_context := fun _ _ => Ret (RemoteContext None None) |}.

(** * Properties *)

(** ** Content extraction *)

Example repr_samples :
  py_str (VDict [("message", VStr ""); ("n", VInt (-3)); ("l", VList [VNone; VBool true])])
  = "{'message': '', 'n': -3, 'l': [None, True]}"
  /\ py_repr (VStr "it's") = String quote2 ("it's" +:+ String quote2 "")
  /\ py_repr (VBytes "user") = "b'user'".
Proof. repeat split; reflexivity. Qed.

(** The chain [a or b or c] is [None] exactly when [a] and [b] are falsy and
    [c] is [None]: a falsy [c] that is not [None] is the value of the chain. *)
Lemma lookup_chain_None d :
  lookup_chain d = VNone <->
  truthy (dict_get d "content") = false /\
  truthy (dict_get d "text") = false /\
  dict_get d "message" = VNone.
Proof.
  unfold lookup_chain, py_or.
  destruct (truthy (dict_get d "content")) eqn:Hc; cbv iota.
  - rewrite Hc.
    split; [intros E; rewrite E in Hc; discriminate | intros (? & _); discriminate].
  - destruct (truthy (dict_get d "text")) eqn:Ht; cbv iota.
    + split; [intros E; rewrite E in Ht; discriminate | intros (_ & ? & _); discriminate].
    + tauto.
Qed.

Lemma extract_loop_dict fuel d :
  extract_loop (S fuel) (VDict d)
  = if is_None (lookup_chain d) then py_str (VDict d)
    else extract_loop fuel (lookup_chain d).
Proof. reflexivity. Qed.

(** A payload that is not a dict goes to the last statement: a text is
    returned as it is, a falsy value gives the empty string. *)
Lemma extract_content_not_dict v :
  is_dict v = false -> _extract_content v = extract_final v.
Proof. destruct v; intros H; try discriminate H; reflexivity. Qed.

(** C1 (as amended): for every dict payload in which [content] and [text] are
    absent or falsy and [message] is absent or [None], and for every payload
    that is not a dict and is a text or truthy, [_extract_content] returns
    [str(payload)]. *)
Theorem extract_content_no_key (payload : value) :
  (forall d, payload = VDict d ->
             truthy (dict_get d "content") = false ->
             truthy (dict_get d "text") = false ->
             dict_get d "message" = VNone ->
             _extract_content payload = py_str payload) /\
  (is_dict payload = false -> is_str payload || truthy payload = true ->
   _extract_content payload = py_str payload).
Proof.
  split.
  - intros d -> Hc Ht Hm.
    assert (E : lookup_chain d = VNone) by (apply lookup_chain_None; auto).
    unfold _extract_content. rewrite extract_loop_dict, E. reflexivity.
  - intros Hd H. rewrite (extract_content_not_dict _ Hd).
    destruct payload; try reflexivity; try discriminate Hd;
      cbn [is_str orb] in H; unfold extract_final; rewrite H; reflexivity.
Qed.

Lemma extract_content_no_key_witness :
  _extract_content (VDict [("role", VStr "tool"); ("content", VStr "")])
  = "{'role': 'tool', 'content': ''}" /\
  _extract_content (VList [VInt 1; VInt 2]) = "[1, 2]".
Proof.
  split.
  - exact (proj1 (extract_content_no_key
                    (VDict [("role", VStr "tool"); ("content", VStr "")]))
             _ eq_refl eq_refl eq_refl eq_refl).
  - exact (proj2 (extract_content_no_key (VList [VInt 1; VInt 2])) eq_refl eq_refl).
Defined.

(** C1 (as stated) fails: in [{"message": ""}] no key yields a usable value,
    yet the empty text is taken as the extracted value and the result is the
    empty string, not the string form of the payload. *)
Lemma extract_content_falsy_message :
  let payload := VDict [("message", VStr "")] in
  truthy (dict_get [("message", VStr "")] "content") = false /\
  truthy (dict_get [("message", VStr "")] "text") = false /\
  truthy (dict_get [("message", VStr "")] "message") = false /\
  _extract_content payload = "" /\
  py_str payload = "{'message': ''}" /\
  _extract_content payload <> py_str payload.
Proof. cbv zeta. repeat split; try reflexivity. vm_compute. discriminate. Qed.

(** What the loop returns when the chain is first [None] below the top: the
    string form of the dict it has reached, not of the payload. *)
Lemma extract_loop_unwrap fuel d inner :
  lookup_chain d = VDict inner ->
  extract_loop (S fuel) (VDict d) = extract_loop fuel (VDict inner).
Proof. intros E. rewrite extract_loop_dict, E. reflexivity. Qed.

Example extract_content_nested :
  _extract_content (VDict [("content", VDict [("kind", VInt 1)])]) = "{'kind': 1}".
Proof. reflexivity. Qed.

Example extract_content_zero : _extract_content (VInt 0) = "" /\ py_str (VInt 0) = "0".
Proof. split; reflexivity. Qed.

(** ** Retry *)

Section RetryProps.

Context {St A : Type}.
Variable sleep : float -> St -> St.
Variable fn : St -> outcome A * St.

Lemma attempts_123 : py_range 1 (_RETRY_ATTEMPTS + 1) = [1; 2; 3].
Proof. reflexivity. Qed.

(** C2: a function that raises on every call is called three times, with a
    sleep of 0.5 s after the first failure and of 1.0 s after the second and
    none after the third, and the exception of the third call is raised; a
    call that returns ends the loop with its result. *)
Theorem retry_three_attempts (s : St) :
  ((forall s', exists e, fst (fn s') = Raise e) ->
   let s1 := snd (fn s) in
   let s2 := snd (fn (sleep 0.5%float s1)) in
   let r3 := fn (sleep 1%float s2) in
   _retry sleep fn s
   = (fst r3, snd r3, [Invoke; Sleep 0.5%float; Invoke; Sleep 1%float; Invoke])
   /\ exists e, fst r3 = Raise e)
  /\ (forall a s1, fn s = (Ret a, s1) -> _retry sleep fn s = (Ret a, s1, [Invoke]))
  /\ (forall e1 s1 a s2,
        fn s = (Raise e1, s1) ->
        fn (sleep 0.5%float s1) = (Ret a, s2) ->
        _retry sleep fn s = (Ret a, s2, [Invoke; Sleep 0.5%float; Invoke]))
  /\ (forall e1 s1 e2 s2 a s3,
        fn s = (Raise e1, s1) ->
        fn (sleep 0.5%float s1) = (Raise e2, s2) ->
        fn (sleep 1%float s2) = (Ret a, s3) ->
        _retry sleep fn s
        = (Ret a, s3, [Invoke; Sleep 0.5%float; Invoke; Sleep 1%float; Invoke])).
Proof.
  unfold _retry. rewrite attempts_123.
  split; [| split; [| split]].
  - intros H. cbv zeta.
    destruct (H s) as [e1 H1].
    destruct (H (sleep 0.5%float (snd (fn s)))) as [e2 H2].
    destruct (H (sleep 1%float (snd (fn (sleep 0.5%float (snd (fn s))))))) as [e3 H3].
    split; [| eauto].
    cbn [retry_loop].
    destruct (fn s) as [r1 s1]. cbn [fst snd] in *. subst r1.
    change (1 <? _RETRY_ATTEMPTS) with true. cbv iota.
    change (_RETRY_BASE_DELAY) with 0.5%float.
    destruct (fn (sleep 0.5%float s1)) as [r2 s2]. cbn [fst snd] in *. subst r2.
    change (2 <? _RETRY_ATTEMPTS) with true. cbv iota.
    change (PrimFloat.mul 0.5%float 2%float) with 1%float.
    destruct (fn (sleep 1%float s2)) as [r3 s3]. cbn [fst snd] in *. subst r3.
    change (3 <? _RETRY_ATTEMPTS) with false. cbv iota.
    reflexivity.
  - intros a s1 H1. cbn [retry_loop]. rewrite H1. reflexivity.
  - intros e1 s1 a s2 H1 H2. cbn [retry_loop]. rewrite H1.
    change (1 <? _RETRY_ATTEMPTS) with true. cbv iota.
    change (_RETRY_BASE_DELAY) with 0.5%float. rewrite H2. reflexivity.
  - intros e1 s1 e2 s2 a s3 H1 H2 H3. cbn [retry_loop]. rewrite H1.
    change (1 <? _RETRY_ATTEMPTS) with true. cbv iota.
    change (_RETRY_BASE_DELAY) with 0.5%float. rewrite H2.
    change (2 <? _RETRY_ATTEMPTS) with true. cbv iota.
    change (PrimFloat.mul 0.5%float 2%float) with 1%float.
    rewrite H3. reflexivity.
Qed.

End RetryProps.

Lemma retry_three_attempts_witness :
  (forall s', exists e, fst (always_down s') = Raise e) /\
  _retry (fun _ s => s) always_down 0%nat
  = (Raise (Exn RuntimeError "service down"), 3%nat,
     [Invoke; Sleep 0.5%float; Invoke; Sleep 1%float; Invoke]).
Proof.
  assert (H : forall s', exists e, fst (always_down s') = Raise e)
    by (intros s'; eexists; reflexivity).
  split; [exact H |].
  exact (proj1 (proj1 (retry_three_attempts (fun _ s => s) always_down 0%nat) H)).
Defined.

Example retry_second_attempt :
  _retry (fun _ s => s) down_once 0%nat = (Ret 1%nat, 2%nat, [Invoke; Sleep 0.5%float; Invoke]).
Proof. reflexivity. Qed.

(** ** Configuration *)

Lemma get_api_key_eq w :
  get_api_key w = (Ret (resolved_key (secrets w)), secrets_read w).
Proof.
  unfold get_api_key, try_except, bind, load_secrets, ret, resolved_key.
  destruct (secrets w); reflexivity.
Qed.

Lemma get_config_value_eq key default_ w :
  Text.is_empty key = false ->
  get_config_value key default_ w
  = (Ret (config_value key default_ (secrets w)), secrets_read w).
Proof.
  intros Hk. unfold get_config_value. rewrite Hk.
  unfold try_except, bind, load_secrets, ret, config_value.
  destruct (secrets w); reflexivity.
Qed.

Lemma is_configured_eq w :
  is_configured w
  = if HONCHO_AVAILABLE w
    then (Ret (has_key (resolved_key (secrets w))), secrets_read w)
    else (Ret false, w).
Proof.
  unfold is_configured, bind, read, ret.
  destruct (HONCHO_AVAILABLE w); cbn [negb]; [| reflexivity].
  rewrite get_api_key_eq. reflexivity.
Qed.

(** A text strips to the empty text exactly when it is empty or all
    whitespace. *)
Lemma rstrip_empty s : Text.is_empty (Text.rstrip s) = Text.all_chars Text.is_space s.
Proof.
  induction s as [| c s IH]; [reflexivity |].
  cbn [Text.rstrip Text.all_chars]. rewrite IH.
  destruct (Text.is_space c), (Text.all_chars Text.is_space s); reflexivity.
Qed.

Lemma lstrip_all_space s :
  Text.all_chars Text.is_space (Text.lstrip s) = Text.all_chars Text.is_space s.
Proof.
  induction s as [| c s IH]; [reflexivity |].
  cbn [Text.lstrip]. destruct (Text.is_space c) eqn:E.
  - rewrite IH. cbn [Text.all_chars]. rewrite E. reflexivity.
  - reflexivity.
Qed.

Lemma strip_empty s : Text.is_empty (Text.strip s) = Text.all_chars Text.is_space s.
Proof. unfold Text.strip. rewrite rstrip_empty. apply lstrip_all_space. Qed.

Lemma is_configured_fst w :
  fst (is_configured w) = Ret (HONCHO_AVAILABLE w && has_key (resolved_key (secrets w))).
Proof. rewrite is_configured_eq. destruct (HONCHO_AVAILABLE w); reflexivity. Qed.

(** C6: [is_configured] never raises; it is [True] exactly when the SDK is
    available and the secret store gives a key that is not empty once
    stripped; it is [False] when the SDK is unavailable, when the store raises,
    and when the key is absent, empty or all whitespace; and it depends on
    nothing but the SDK flag and the key entry. *)
Theorem is_configured_iff (w : world) :
  (fst (is_configured w) = Ret true \/ fst (is_configured w) = Ret false) /\
  (fst (is_configured w) = Ret true <->
   HONCHO_AVAILABLE w = true /\
   exists m v, secrets w = Ret m /\ m !! "HONCHO_API_KEY" = Some v /\
               Text.is_empty (Text.strip v) = false) /\
  (HONCHO_AVAILABLE w = false -> fst (is_configured w) = Ret false) /\
  (forall e, secrets w = Raise e -> fst (is_configured w) = Ret false) /\
  (forall m, secrets w = Ret m -> m !! "HONCHO_API_KEY" = None ->
             fst (is_configured w) = Ret false) /\
  (forall m v, secrets w = Ret m -> m !! "HONCHO_API_KEY" = Some v ->
               Text.all_chars Text.is_space v = true ->
               fst (is_configured w) = Ret false) /\
  (forall w', HONCHO_AVAILABLE w' = HONCHO_AVAILABLE w ->
              api_key_entry w' = api_key_entry w ->
              fst (is_configured w') = fst (is_configured w)).
Proof.
  rewrite is_configured_fst.
  assert (Hres : forall m v, secrets w = Ret m -> m !! "HONCHO_API_KEY" = Some v ->
                 has_key (resolved_key (secrets w)) = negb (Text.is_empty (Text.strip v))).
  { intros m v Hs Hv. rewrite Hs. unfold resolved_key, or_none. rewrite Hv.
    change (default "" (Some v)) with v.
    destruct (Text.is_empty (Text.strip v)); reflexivity. }
  split; [| split; [| split; [| split; [| split; [| split]]]]].
  - destruct (HONCHO_AVAILABLE w && has_key (resolved_key (secrets w))); auto.
  - split.
    + intros H. injection H as H. apply andb_true_iff in H. destruct H as [Ha Hk].
      split; [exact Ha |].
      destruct (secrets w) as [m | e] eqn:Hs; [| discriminate Hk].
      destruct (m !! "HONCHO_API_KEY") as [v |] eqn:Hv.
      * exists m, v. repeat split; try assumption.
        unfold resolved_key, or_none in Hk. rewrite Hv in Hk.
        change (default "" (Some v)) with v in Hk.
        destruct (Text.is_empty (Text.strip v)); [discriminate Hk | reflexivity].
      * unfold resolved_key in Hk. rewrite Hv in Hk. discriminate Hk.
    + intros (Ha & m & v & Hs & Hv & Hne).
      rewrite Ha, (Hres m v Hs Hv), Hne. reflexivity.
  - intros Ha. rewrite Ha. reflexivity.
  - intros e He. rewrite He. cbn [resolved_key has_key]. rewrite andb_false_r. reflexivity.
  - intros m Hs Hv. rewrite Hs. unfold resolved_key. rewrite Hv.
    cbn. rewrite andb_false_r. reflexivity.
  - intros m v Hs Hv Hsp. rewrite (Hres m v Hs Hv), strip_empty, Hsp.
    cbn. rewrite andb_false_r. reflexivity.
  - intros w' Ha Hk. rewrite is_configured_fst, Ha.
    assert (E : resolved_key (secrets w') = resolved_key (secrets w)).
    { unfold api_key_entry in Hk. unfold resolved_key.
      destruct (secrets w'), (secrets w); rewrite ?Hk; try reflexivity.
      rewrite <- Hk. reflexivity. }
    rewrite E. reflexivity.
Qed.

Example is_configured_samples :
  fst (is_configured world_configured) = Ret true /\
  fst (is_configured world_no_key) = Ret false /\
  resolved_key (secrets world_configured) = Some "hc_key".
Proof. repeat split; vm_compute; reflexivity. Qed.

(** ** Validation in [sync_message] *)

Lemma in_roles_cases r : in_roles r = true -> r = "user" \/ r = "assistant".
Proof.
  unfold in_roles. intros H. apply orb_true_iff in H.
  destruct H as [H | H]; apply String.eqb_eq in H; auto.
Qed.

Lemma validate_role_accepts s :
  in_roles (Text.lower (Text.strip s)) = true ->
  _validate_role (VStr s) = Ret (Text.lower (Text.strip s)).
Proof. intros H. unfold _validate_role. rewrite H. reflexivity. Qed.

Lemma validate_role_rejects s :
  in_roles (Text.lower (Text.strip s)) = false ->
  exists msg, _validate_role (VStr s) = Raise (Exn ValueError msg).
Proof. intros H. unfold _validate_role. rewrite H. eexists. reflexivity. Qed.




(** C10 (as amended): a role without a [strip] method ([None], a bool, an
    integer, a list, a dict) makes [sync_message] raise [AttributeError] with
    the world as it was; a content that is not a text, with a valid role,
    makes it return [False] without raising; and a [bytes] role makes it
    return [False] without raising. *)
Theorem sync_message_bad_types (role content : value) (w : world) :
  (has_strip role = false ->
   exists msg, sync_message role content w = (Raise (Exn AttributeError msg), w)) /\
  (forall s, role = VStr s -> in_roles (Text.lower (Text.strip s)) = true ->
             is_str content = false ->
             sync_message role content w = (Ret false, w)) /\
  (forall b, role = VBytes b -> sync_message role content w = (Ret false, w)).
Proof.
  split; [| split].
  - intros H. unfold sync_message, bind, try_except, lift.
    destruct role; try discriminate H; eexists; reflexivity.
  - intros s -> Hr Hc. unfold sync_message, bind, try_except, lift.
    rewrite (validate_role_accepts s Hr).
    destruct content; try discriminate Hc; reflexivity.
  - intros b ->. reflexivity.
Qed.

Lemma sync_message_bad_types_witness :
  (exists msg, sync_message VNone (VStr "hello") world_configured
               = (Raise (Exn AttributeError msg), world_configured)) /\
  sync_message (VStr "user") (VInt 42) world_configured = (Ret false, world_configured).
Proof.
  split.
  - exact (proj1 (sync_message_bad_types VNone (VStr "hello") world_configured) eq_refl).
  - exact (proj1 (proj2 (sync_message_bad_types (VStr "user") (VInt 42) world_configured))
             "user" eq_refl eq_refl eq_refl).
Defined.

(** C10 (as stated) fails: [bytes] is not [str] but has [strip] and [lower];
    the bytes role is in no tuple of texts, [_validate_role] raises
    [ValueError], and [sync_message] returns [False] instead of raising. *)
Lemma sync_message_bytes_role :
  is_str (VBytes "user") = false /\
  sync_message (VBytes "user") (VStr "hello") world_configured
  = (Ret false, world_configured).
Proof. split; reflexivity. Qed.

(** ** Reasoning about computations *)

Lemma bind_Ret {A B} (m : M A) (k : A -> M B) w b w' :
  bind m k w = (Ret b, w') ->
  exists a w1, m w = (Ret a, w1) /\ k a w1 = (Ret b, w').
Proof.
  unfold bind. destruct (m w) as [[a | e] w1]; [eauto | discriminate].
Qed.

Lemma bind_eq {A B} (m : M A) (k : A -> M B) w a w1 :
  m w = (Ret a, w1) -> bind m k w = k a w1.
Proof. intros E. unfold bind. rewrite E. reflexivity. Qed.

Lemma stable_refl w : stable w w.
Proof. split; reflexivity. Qed.

Lemma stable_trans w1 w2 w3 : stable w1 w2 -> stable w2 w3 -> stable w1 w3.
Proof. intros [] []. split; congruence. Qed.

Section Preserves.

Variable P : world -> world -> Prop.
Hypothesis P_refl : forall w, P w w.
Hypothesis P_trans : forall w1 w2 w3, P w1 w2 -> P w2 w3 -> P w1 w3.

Lemma preserves_ret {A} (a : A) : preserves P (ret a).
Proof. intros w. apply P_refl. Qed.

Lemma preserves_lift {A} (r : outcome A) : preserves P (lift r).
Proof. intros w. apply P_refl. Qed.

Lemma preserves_read {A} (f : world -> A) : preserves P (read f).
Proof. intros w. apply P_refl. Qed.

Lemma preserves_bind {A B} (m : M A) (k : A -> M B) :
  preserves P m -> (forall a, preserves P (k a)) -> preserves P (bind m k).
Proof.
  intros Hm Hk w. unfold bind. specialize (Hm w).
  destruct (m w) as [[a | e] w1]; cbn [snd] in *.
  - eapply P_trans; [exact Hm | apply Hk].
  - exact Hm.
Qed.

Lemma preserves_try {A} (m : M A) caught (h : exn -> M A) :
  preserves P m -> (forall e, preserves P (h e)) -> preserves P (try_except m caught h).
Proof.
  intros Hm Hh w. unfold try_except. specialize (Hm w).
  destruct (m w) as [[a | e] w1]; cbn [snd] in *.
  - exact Hm.
  - destruct (caught e); [| exact Hm].
    eapply P_trans; [exact Hm | apply Hh].
Qed.

Lemma preserves_modify (f : world -> world) :
  (forall w, P w (f w)) -> preserves P (modify f).
Proof. intros H w. apply H. Qed.

Lemma preserves_sdk_call e answer :
  (forall w, P w (set_trace (trace w ++ [e]) w)) -> preserves P (sdk_call e answer).
Proof.
  intros H w. unfold sdk_call. destruct (answer (sdk w) (trace w)); apply H.
Qed.

End Preserves.

(** The steps of a proof that a computation preserves a relation: one lemma
    per construct, a case split at each branch. *)
Ltac preserves_step Prefl Ptrans :=
  first
    [ apply (preserves_ret _ Prefl)
    | apply (preserves_lift _ Prefl)
    | apply (preserves_read _ Prefl)
    | apply (preserves_bind _ Ptrans); [| intros ?]
    | apply (preserves_try _ Ptrans); [| intros ?]
    | match goal with
      | |- preserves _ (if ?b then _ else _) => destruct b
      | |- preserves _ (match ?x with _ => _ end) => destruct x
      end ].

Lemma stable_trace e w : stable w (set_trace (trace w ++ [e]) w).
Proof. split; reflexivity. Qed.

Lemma stable_sdk_call e answer : preserves stable (sdk_call e answer).
Proof. apply preserves_sdk_call. intros w. apply stable_trace. Qed.

Lemma stable_load_secrets : preserves stable load_secrets.
Proof. intros w. apply stable_trace. Qed.

Lemma stable_get_api_key : preserves stable get_api_key.
Proof. intros w. rewrite get_api_key_eq. apply stable_trace. Qed.

Create HintDb stable_db discriminated.
#[local] Hint Resolve stable_sdk_call stable_load_secrets stable_get_api_key : stable_db.

(** Known computations by their lemma, the others by their structure. *)
Ltac stable_steps :=
  repeat first
    [ solve [auto 1 with stable_db nocore]
    | preserves_step stable_refl stable_trans ].

Lemma stable_get_config_value key d : preserves stable (get_config_value key d).
Proof. unfold get_config_value. stable_steps. Qed.

#[local] Hint Resolve stable_get_config_value : stable_db.

Lemma stable_is_configured : preserves stable is_configured.
Proof. unfold is_configured. stable_steps. Qed.

Lemma stable_get_client : preserves stable get_client.
Proof.
  unfold get_client, Honcho. stable_steps.
  apply preserves_modify. intros w. split; reflexivity.
Qed.

Lemma stable_honcho_setitem k v : preserves stable (honcho_setitem k v).
Proof.
  intros w. unfold honcho_setitem.
  destruct (_honcho (context w)); cbn [snd]; split; reflexivity.
Qed.

Lemma stable_honcho_attach : preserves stable honcho_attach.
Proof.
  apply preserves_modify. intros w.
  destruct (_honcho (context w)); split; reflexivity.
Qed.

#[local] Hint Resolve stable_is_configured stable_get_client stable_honcho_setitem
  stable_honcho_attach : stable_db.

Lemma stable_ensure_initialized : preserves stable ensure_initialized.
Proof.
  unfold ensure_initialized, session_of, peer_of, add_peers, get_user_id. stable_steps.
Qed.

Lemma stable_session_id w w' :
  stable w w' -> get_session_id (context w') = get_session_id (context w).
Proof.
  intros H. unfold get_session_id.
  rewrite (stable_id _ _ H), (stable_addr _ _ H). reflexivity.
Qed.

(** ** Lazy initialisation *)

Lemma honcho_setitem_Ret k v w u w' :
  honcho_setitem k v w = (Ret u, w') ->
  exists h, _honcho (context w) = Some h /\
            _honcho (context w') = Some (<[k := v]> h).
Proof.
  unfold honcho_setitem. destruct (_honcho (context w)) as [h |]; [| discriminate].
  intros H. injection H as _ <-. exists h. split; reflexivity.
Qed.

Lemma ensure_initialized_short w :
  honcho_enabled (context w) = true -> ensure_initialized w = (Ret true, w).
Proof.
  intros H. unfold ensure_initialized, bind at 1, read. rewrite H. reflexivity.
Qed.

(** A successful initialisation leaves the context marked enabled. *)
Lemma ensure_initialized_enabled w w' :
  ensure_initialized w = (Ret true, w') -> honcho_enabled (context w') = true.
Proof.
  unfold ensure_initialized, bind at 1, read.
  destruct (honcho_enabled (context w)) eqn:He.
  { intros H. injection H as <-. exact He. }
  unfold bind at 1. rewrite is_configured_eq.
  destruct (HONCHO_AVAILABLE w) eqn:Ha; [| discriminate].
  destruct (has_key (resolved_key (secrets w))) eqn:Hk; [| discriminate].
  cbn [negb]. unfold bind at 1.
  destruct (get_client (secrets_read w)) as [[[c |] | e] w1] eqn:Hc; try discriminate.
  unfold bind at 1. unfold honcho_attach at 1, modify at 1.
  set (w2 := match _honcho (context w1) with Some _ => w1 | None => _ end).
  unfold try_except.
  match goal with
  | |- context [let (_, _) := ?body w2 in _] =>
      destruct (body w2) as [[b | e] w3] eqn:Hb
  end.
  - intros H. injection H as -> <-.
    apply bind_Ret in Hb as (s & wa & _ & Hb).
    apply bind_Ret in Hb as (u & wb & _ & Hb).
    apply bind_Ret in Hb as (p1 & wc & _ & Hb).
    apply bind_Ret in Hb as (p2 & wd & _ & Hb).
    apply bind_Ret in Hb as (x1 & we & _ & Hb).
    apply bind_Ret in Hb as (x2 & wf & H1 & Hb).
    apply bind_Ret in Hb as (x3 & wg & H2 & Hb).
    injection Hb as <-.
    apply honcho_setitem_Ret in H1 as (h1 & _ & H1).
    apply honcho_setitem_Ret in H2 as (h2 & H2 & H3).
    rewrite H1 in H2. injection H2 as <-.
    unfold honcho_enabled. rewrite H3.
    rewrite lookup_insert_ne by discriminate.
    rewrite lookup_insert_eq. reflexivity.
  - cbn [except_Exception]. unfold bind, ret.
    destruct (honcho_setitem "enabled" (VBool false) w3) as [[u | e'] w4]; discriminate.
Qed.

(** C7: with the context already marked enabled, [ensure_initialized] returns
    [True] and the world is as it was: no secret read, no client, no SDK call,
    no change of the side-channel; so a call after a successful call returns
    [True] and changes nothing. *)
Theorem ensure_initialized_idempotent (w : world) :
  (honcho_enabled (context w) = true -> ensure_initialized w = (Ret true, w)) /\
  (forall w', ensure_initialized w = (Ret true, w') ->
              ensure_initialized w' = (Ret true, w')).
Proof.
  split.
  - apply ensure_initialized_short.
  - intros w' H. apply ensure_initialized_short.
    apply (ensure_initialized_enabled w w' H).
Qed.

Lemma ensure_initialized_idempotent_witness :
  ensure_initialized world_enabled = (Ret true, world_enabled) /\
  fst (ensure_initialized world_configured) = Ret true /\
  ensure_initialized (snd (ensure_initialized world_configured))
  = (Ret true, snd (ensure_initialized world_configured)).
Proof.
  split; [| split].
  - exact (proj1 (ensure_initialized_idempotent world_enabled) eq_refl).
  - vm_compute. reflexivity.
  - apply (proj2 (ensure_initialized_idempotent world_configured)).
    vm_compute. reflexivity.
Defined.

Example ensure_initialized_trace :
  trace (snd (ensure_initialized world_configured))
  = [LoadSecrets; LoadSecrets; LoadSecrets; NewClient "agent-zero";
     ClientSession "chat-7"; LoadSecrets; ClientPeer "user"; ClientPeer "agent-zero";
     AddPeers "chat-7" ["user"; "agent-zero"]]
  /\ context (snd (ensure_initialized world_configured)) = chat7_enabled.
Proof. split; vm_compute; reflexivity. Qed.

(** ** User context *)

Lemma get_user_context_eq max_tokens w w1 :
  ensure_initialized w = (Ret true, w1) ->
  get_user_context max_tokens w
  = match cache_hit (get_session_id (context w1)) w1 with
    | Some v => (Ret v, w1)
    | None =>
        match get_client w1 with
        | (Ret (Some _), w2) => fetch_and_cache (get_session_id (context w1)) w2
        | (Ret None, w2) => (Ret None, w2)
        | (Raise e, w2) => (Raise e, w2)
        end
    end.
Proof.
  intros H. unfold get_user_context. cbv zeta.
  rewrite (bind_eq _ _ _ _ _ H). cbn [negb].
  unfold bind at 1, read at 1. unfold bind at 1, read at 1.
  unfold cache_hit.
  destruct (_context_cache w1 !! get_session_id (context w1)) as [[t v] |].
  - unfold bind at 1. unfold bind at 1, time_time, read.
    destruct (PrimFloat.ltb (PrimFloat.sub (clock w1) t) CONTEXT_CACHE_TTL);
      [reflexivity |].
    cbn [ret]. unfold bind at 1.
    destruct (get_client w1) as [[[c |] | e] w2]; reflexivity.
  - unfold bind at 1. cbn [ret]. unfold bind at 1.
    destruct (get_client w1) as [[[c |] | e] w2]; reflexivity.
Qed.

Lemma stable_cache_hit sid w w' : stable w w' -> cache_hit sid w' = cache_hit sid w.
Proof.
  intros H. unfold cache_hit.
  rewrite (stable_context_cache _ _ H), (stable_clock _ _ H). reflexivity.
Qed.

Lemma ensure_initialized_stable w r w1 : ensure_initialized w = (r, w1) -> stable w w1.
Proof. intros H. pose proof (stable_ensure_initialized w) as S. rewrite H in S. exact S. Qed.

Lemma get_client_stable w r w1 : get_client w = (r, w1) -> stable w w1.
Proof. intros H. pose proof (stable_get_client w) as S. rewrite H in S. exact S. Qed.

Lemma stable_remote_query sid : preserves stable (remote_query sid).
Proof.
  unfold remote_query, session_of. stable_steps.
  intros w. apply stable_trace.
Qed.

(** The fetch in terms of the remote query: a failure is turned into [None]
    and nothing is stored, a result is stored at the clock's time. *)
Lemma fetch_and_cache_eq sid w :
  fetch_and_cache sid w
  = match remote_query sid w with
    | (Ret rctx, w1) =>
        (Ret (context_result rctx),
         set_context_cache
           (<[sid := (clock w1, context_result rctx)]> (_context_cache w1)) w1)
    | (Raise e, w1) => (Ret None, w1)
    end.
Proof.
  unfold fetch_and_cache, remote_query, try_except, bind.
  destruct (session_of sid w) as [[s | e] w1]; [| reflexivity].
  destruct (context_of s w1) as [[rctx | e] w2]; reflexivity.
Qed.

Lemma remote_query_trace sid w :
  exists tr, trace (snd (remote_query sid w)) = (trace w ++ ClientSession sid :: tr)%list.
Proof.
  unfold remote_query, session_of, sdk_call, context_of, bind, ret.
  destruct (client_session (sdk w) (trace w) sid).
  - exists []. reflexivity.
  - exists [GetContext sid]. cbn. rewrite <- app_assoc. reflexivity.
Qed.

Lemma fetch_and_cache_trace sid w :
  exists tr, trace (snd (fetch_and_cache sid w)) = (trace w ++ ClientSession sid :: tr)%list.
Proof.
  rewrite fetch_and_cache_eq. destruct (remote_query_trace sid w) as [tr H].
  exists tr. destruct (remote_query sid w) as [[rctx | e] w1]; exact H.
Qed.

Lemma get_client_eq w :
  get_client w
  = if HONCHO_AVAILABLE w then
      match resolved_key (secrets w) with
      | None => (Ret None, secrets_read w)
      | Some api_key =>
          let w2 := secrets_read (secrets_read w) in
          match _client_cache w !! workspace_of w with
          | Some c => (Ret (Some c), w2)
          | None =>
              let w3 := set_trace (trace w2 ++ [NewClient (workspace_of w)]) w2 in
              match honcho_new (sdk w) (trace w2) api_key (workspace_of w) with
              | None =>
                  (Ret (Some (Client api_key (workspace_of w))),
                   set_client_cache
                     (<[workspace_of w := Client api_key (workspace_of w)]>
                        (_client_cache w)) w3)
              | Some e => (Ret None, w3)
              end
          end
      end
    else (Ret None, w).
Proof.
  unfold get_client. unfold bind at 1, read at 1.
  destruct (HONCHO_AVAILABLE w); cbn [negb]; [| reflexivity].
  unfold bind at 1. rewrite get_api_key_eq.
  destruct (resolved_key (secrets w)) as [k |]; [| reflexivity].
  unfold bind at 1. rewrite get_config_value_eq by reflexivity.
  unfold bind at 1, read at 1. cbv zeta.
  change (_client_cache (secrets_read (secrets_read w))) with (_client_cache w).
  change (secrets (secrets_read w)) with (secrets w).
  fold (workspace_of w).
  destruct (_client_cache w !! workspace_of w) as [c |]; [reflexivity |].
  unfold try_except, Honcho, sdk_call, modify, bind, ret. cbv beta.
  change (sdk (secrets_read (secrets_read w))) with (sdk w).
  destruct (honcho_new (sdk w) (trace (secrets_read (secrets_read w))) k (workspace_of w));
    reflexivity.
Qed.

(** What [get_client] adds to the trace: reads of the secret store and at
    most one construction of a client; never a call on a session. *)
Lemma get_client_events w :
  exists tr, trace (snd (get_client w)) = (trace w ++ tr)%list /\
             Forall (fun e => is_session_call e = false) tr.
Proof.
  rewrite get_client_eq.
  destruct (HONCHO_AVAILABLE w).
  2: { exists []. split; [symmetry; apply app_nil_r | constructor]. }
  destruct (resolved_key (secrets w)).
  2: { exists [LoadSecrets]. split; [reflexivity | repeat constructor]. }
  cbv zeta.
  destruct (_client_cache w !! workspace_of w).
  { exists [LoadSecrets; LoadSecrets].
    split; [cbn; rewrite <- app_assoc; reflexivity | repeat constructor]. }
  exists [LoadSecrets; LoadSecrets; NewClient (workspace_of w)].
  split; [| repeat constructor].
  destruct (honcho_new _ _ _ _); cbn; rewrite <- !app_assoc; reflexivity.
Qed.

(** C3 (as amended): when initialisation succeeds and the cache holds
    [(t0, v)] for the session, a call with [clock - t0 < 120] returns [v] and
    does nothing beyond the initialisation (with the context already enabled
    the world is as it was); a call with [clock - t0 < 120] false runs the
    remote fetch, whose first step contacts the session, provided
    [get_client] still returns a client; when [get_client] returns [None]
    the call returns [None] and stops there: after the initialisation the
    trace has only what [get_client] added, and that is no call on a
    session. *)
Theorem user_context_ttl (max_tokens : value) (w w1 : world) (t0 : float)
        (v : option string) :
  ensure_initialized w = (Ret true, w1) ->
  _context_cache w !! get_session_id (context w) = Some (t0, v) ->
  (PrimFloat.ltb (PrimFloat.sub (clock w) t0) CONTEXT_CACHE_TTL = true ->
   get_user_context max_tokens w = (Ret v, w1) /\
   (honcho_enabled (context w) = true -> w1 = w)) /\
  (PrimFloat.ltb (PrimFloat.sub (clock w) t0) CONTEXT_CACHE_TTL = false ->
   forall c w2, get_client w1 = (Ret (Some c), w2) ->
     get_user_context max_tokens w = fetch_and_cache (get_session_id (context w)) w2 /\
     exists tr, trace (snd (get_user_context max_tokens w))
                = (trace w2 ++ ClientSession (get_session_id (context w)) :: tr)%list) /\
  (PrimFloat.ltb (PrimFloat.sub (clock w) t0) CONTEXT_CACHE_TTL = false ->
   forall w2, get_client w1 = (Ret None, w2) ->
     get_user_context max_tokens w = (Ret None, w2) /\
     exists tr, trace (snd (get_user_context max_tokens w)) = (trace w1 ++ tr)%list /\
                Forall (fun e => is_session_call e = false) tr).
Proof.
  intros Hinit Hcache.
  pose proof (ensure_initialized_stable _ _ _ Hinit) as Hst.
  pose proof (get_user_context_eq max_tokens w w1 Hinit) as E.
  rewrite (stable_session_id _ _ Hst), (stable_cache_hit _ _ _ Hst) in E.
  unfold cache_hit in E. rewrite Hcache in E.
  split; [| split].
  - intros Hlt. rewrite Hlt in E. split; [exact E |].
    intros Hen. rewrite (ensure_initialized_short w Hen) in Hinit.
    injection Hinit as <-. reflexivity.
  - intros Hge c w2 Hc. rewrite Hge, Hc in E. split; [exact E |].
    rewrite E. apply fetch_and_cache_trace.
  - intros Hge w2 Hc. rewrite Hge, Hc in E. split; [exact E |].
    rewrite E. cbn [snd].
    pose proof (get_client_events w1) as H. rewrite Hc in H. exact H.
Qed.

Lemma user_context_ttl_witness :
  get_user_context (VInt 500) world_cached = (Ret (Some "Likes Python"), world_cached) /\
  fst (get_user_context (VInt 500) world_expired) = Ret (Some "Likes Python") /\
  trace (snd (get_user_context (VInt 500) world_expired))
  = [LoadSecrets; LoadSecrets; NewClient "agent-zero"; ClientSession "chat-7";
     GetContext "chat-7"] /\
  get_user_context (VInt 500) world_no_client
  = (Ret None, snd (get_client world_no_client)) /\
  trace (snd (get_client world_no_client)) = [LoadSecrets; LoadSecrets; NewClient "agent-zero"].
Proof.
  split; [| split; [| split; [| split]]].
  - exact (proj1 (proj1 (user_context_ttl (VInt 500) world_cached world_cached
                           950%float (Some "Likes Python") eq_refl eq_refl) eq_refl)).
  - assert (Hc : get_client world_expired
                 = (Ret (Some (Client "hc_key" "agent-zero")),
                    snd (get_client world_expired)))
      by (vm_compute; reflexivity).
    destruct (proj1 (proj2 (user_context_ttl (VInt 500) world_expired world_expired
                       100%float (Some "Likes tea") eq_refl eq_refl)) eq_refl _ _ Hc)
      as [E _].
    rewrite E. vm_compute. reflexivity.
  - assert (Hc : get_client world_expired
                 = (Ret (Some (Client "hc_key" "agent-zero")),
                    snd (get_client world_expired)))
      by (vm_compute; reflexivity).
    destruct (proj1 (proj2 (user_context_ttl (VInt 500) world_expired world_expired
                       100%float (Some "Likes tea") eq_refl eq_refl)) eq_refl _ _ Hc)
      as [E _].
    rewrite E. vm_compute. reflexivity.
  - assert (Hc : get_client world_no_client = (Ret None, snd (get_client world_no_client)))
      by (vm_compute; reflexivity).
    exact (proj1 (proj2 (proj2 (user_context_ttl (VInt 500) world_no_client
                                  world_no_client 100%float (Some "Likes tea")
                                  eq_refl eq_refl)) eq_refl _ Hc)).
  - vm_compute. reflexivity.
Defined.

(** C3 (as stated) fails: the context is enabled, so initialisation succeeds;
    the cached entry is 900 s old; but the key is gone from the secret store,
    [get_client] returns [None], and the call returns [None] without any call
    to the remote service. *)
Lemma user_context_expired_no_client :
  ensure_initialized world_key_removed = (Ret true, world_key_removed) /\
  _context_cache world_key_removed !! get_session_id (context world_key_removed)
  = Some (100%float, Some "Likes Python") /\
  PrimFloat.ltb (PrimFloat.sub (clock world_key_removed) 100%float) CONTEXT_CACHE_TTL
  = false /\
  fst (get_user_context (VInt 500) world_key_removed) = Ret None /\
  trace (snd (get_user_context (VInt 500) world_key_removed)) = [LoadSecrets] /\
  existsb is_remote (trace (snd (get_user_context (VInt 500) world_key_removed))) = false.
Proof. repeat split; vm_compute; reflexivity. Qed.

(** C4: when [get_user_context] reaches the remote query (initialisation
    succeeds, no fresh cache entry, a client is there), a query that raises
    gives [None] and leaves the context cache as it was, and a query that
    returns stores its result, [None] included, at the clock's time. *)
Theorem user_context_fetch (max_tokens : value) (w w1 w2 : world) (c : client) :
  ensure_initialized w = (Ret true, w1) ->
  cache_hit (get_session_id (context w)) w = None ->
  get_client w1 = (Ret (Some c), w2) ->
  (forall e, fst (remote_query (get_session_id (context w)) w2) = Raise e ->
     fst (get_user_context max_tokens w) = Ret None /\
     _context_cache (snd (get_user_context max_tokens w)) = _context_cache w) /\
  (forall rctx, fst (remote_query (get_session_id (context w)) w2) = Ret rctx ->
     fst (get_user_context max_tokens w) = Ret (context_result rctx) /\
     _context_cache (snd (get_user_context max_tokens w))
     = <[get_session_id (context w) := (clock w, context_result rctx)]>
         (_context_cache w)).
Proof.
  intros Hinit Hmiss Hc.
  pose proof (ensure_initialized_stable _ _ _ Hinit) as Hst1.
  pose proof (get_client_stable _ _ _ Hc) as Hst2.
  pose proof (get_user_context_eq max_tokens w w1 Hinit) as E.
  rewrite (stable_session_id _ _ Hst1), (stable_cache_hit _ _ _ Hst1), Hmiss, Hc in E.
  rewrite fetch_and_cache_eq in E.
  pose proof (stable_remote_query (get_session_id (context w)) w2) as Hst3.
  assert (Hst : stable w (snd (remote_query (get_session_id (context w)) w2)))
    by (eapply stable_trans; [eapply stable_trans |]; eassumption).
  destruct (remote_query (get_session_id (context w)) w2) as [[rctx | e] w3];
    cbn [fst snd] in *; rewrite E; cbn [fst snd].
  - split; [intros e He; discriminate He |].
    intros r Hr. injection Hr as <-. split; [reflexivity |].
    cbn. rewrite (stable_clock _ _ Hst), (stable_context_cache _ _ Hst). reflexivity.
  - split; [| intros r Hr; discriminate Hr].
    intros e' _. split; [reflexivity |]. apply (stable_context_cache _ _ Hst).
Qed.

Lemma user_context_fetch_witness :
  (fst (get_user_context (VInt 500) (with_sdk remote_down world_enabled)) = Ret None /\
   _context_cache (snd (get_user_context (VInt 500) (with_sdk remote_down world_enabled)))
   = ∅) /\
  (fst (get_user_context (VInt 500) (with_sdk remote_blank world_enabled)) = Ret None /\
   _context_cache (snd (get_user_context (VInt 500) (with_sdk remote_blank world_enabled)))
   = <["chat-7" := (1000%float, None)]> ∅).
Proof.
  split.
  - assert (Hc : get_client (with_sdk remote_down world_enabled)
                 = (Ret (Some (Client "hc_key" "agent-zero")),
                    snd (get_client (with_sdk remote_down world_enabled))))
      by (vm_compute; reflexivity).
    exact (proj1 (user_context_fetch (VInt 500) (with_sdk remote_down world_enabled)
                    (with_sdk remote_down world_enabled) _ _ eq_refl eq_refl Hc)
             (Exn RuntimeError "connection refused") eq_refl).
  - assert (Hc : get_client (with_sdk remote_blank world_enabled)
                 = (Ret (Some (Client "hc_key" "agent-zero")),
                    snd (get_client (with_sdk remote_blank world_enabled))))
      by (vm_compute; reflexivity).
    exact (proj2 (user_context_fetch (VInt 500) (with_sdk remote_blank world_enabled)
                    (with_sdk remote_blank world_enabled) _ _ eq_refl eq_refl Hc)
             (RemoteContext None (Some "")) eq_refl).
Defined.

(** C9: [max_tokens] is replaced by 500 when it is not an integer or is below
    1, is kept otherwise, and is not read again: two calls that differ in it
    only give the same result and the same world, whatever the two values. *)
Theorem get_user_context_max_tokens (m1 m2 : value) (w : world) :
  get_user_context m1 w = get_user_context m2 w /\
  (is_int m1 = false \/ int_of m1 < 1 -> sanitize_max_tokens m1 = VInt 500) /\
  (is_int m1 = true /\ 1 <= int_of m1 -> sanitize_max_tokens m1 = m1).
Proof.
  split; [reflexivity |]. unfold sanitize_max_tokens. split.
  - intros [H | H].
    + rewrite H. reflexivity.
    + apply Z.ltb_lt in H. rewrite H, orb_true_r. reflexivity.
  - intros [Hi Hl]. rewrite Hi. apply Z.ltb_ge in Hl. rewrite Hl. reflexivity.
Qed.

Example get_user_context_no_cap :
  get_user_context (VInt 1) world_enabled
  = get_user_context (VStr "many") world_enabled
  /\ fst (get_user_context (VInt 1) world_enabled) = Ret (Some "Likes Python").
Proof. split; vm_compute; reflexivity. Qed.

(** ** Init hook *)

(** Without configuration the hook does nothing, or reads the secret store
    once when the SDK is there. *)
Lemma execute_unconfigured w :
  fst (is_configured w) = Ret false ->
  exists w', HonchoInit.execute w = (Ret tt, w') /\ (w' = w \/ w' = secrets_read w).
Proof.
  rewrite is_configured_fst. intros H. injection H as H.
  unfold HonchoInit.execute, try_except, HonchoInit._load_helper.
  unfold bind at 1.
  destruct (helper_file w); cbn [negb];
    try (eexists; split; [reflexivity | left; reflexivity]).
  unfold HonchoInit.in_new_module. unfold bind at 1.
  rewrite is_configured_eq.
  change (HONCHO_AVAILABLE (set_context_cache ∅ (set_client_cache ∅ w)))
    with (HONCHO_AVAILABLE w).
  change (secrets (set_context_cache ∅ (set_client_cache ∅ w))) with (secrets w).
  destruct (HONCHO_AVAILABLE w); cbn [andb] in H.
  - rewrite H. eexists. split; [reflexivity |]. right. destruct w; reflexivity.
  - eexists. split; [reflexivity |]. left. destruct w; reflexivity.
Qed.

(** C8: when [is_configured] is false, [HonchoInit.execute] returns normally
    and the context object is as it was ([_honcho] neither attached nor
    changed); the module caches are as they were too. *)
Theorem init_unconfigured (w : world) :
  fst (is_configured w) = Ret false ->
  fst (HonchoInit.execute w) = Ret tt /\
  context (snd (HonchoInit.execute w)) = context w /\
  _client_cache (snd (HonchoInit.execute w)) = _client_cache w /\
  _context_cache (snd (HonchoInit.execute w)) = _context_cache w.
Proof.
  intros H. destruct (execute_unconfigured w H) as (w' & E & [-> | ->]); rewrite E;
    repeat split; reflexivity.
Qed.

Lemma init_unconfigured_witness :
  fst (HonchoInit.execute world_no_key) = Ret tt /\
  context (snd (HonchoInit.execute world_no_key)) = chat7.
Proof.
  pose proof (init_unconfigured world_no_key eq_refl) as (H1 & H2 & _).
  split; [exact H1 | exact H2].
Defined.

Example init_configured :
  context (snd (HonchoInit.execute world_configured)) = chat7_enabled.
Proof. vm_compute. reflexivity. Qed.

(** * Further properties *)

(** ** Text *)

Lemma lstrip_no_lead s : starts_with_space (Text.lstrip s) = false.
Proof.
  induction s as [| c s IH]; [reflexivity |].
  cbn [Text.lstrip]. destruct (Text.is_space c) eqn:E; [exact IH |].
  cbn [starts_with_space]. exact E.
Qed.

Lemma rstrip_no_trail s : ends_with_space (Text.rstrip s) = false.
Proof.
  induction s as [| c s IH]; [reflexivity |].
  cbn [Text.rstrip].
  destruct (Text.rstrip s) as [| c' r] eqn:Er.
  - cbn [Text.is_empty]. rewrite andb_true_r.
    destruct (Text.is_space c) eqn:E; [reflexivity |].
    cbn [ends_with_space]. exact E.
  - cbn [Text.is_empty]. rewrite andb_false_r. exact IH.
Qed.

Lemma rstrip_keeps_lead s :
  starts_with_space s = false -> starts_with_space (Text.rstrip s) = false.
Proof.
  destruct s as [| c s]; [reflexivity |].
  cbn [starts_with_space Text.rstrip]. intros E. rewrite E. exact E.
Qed.

Lemma lstrip_id s : starts_with_space s = false -> Text.lstrip s = s.
Proof.
  destruct s as [| c s]; [reflexivity |].
  cbn [starts_with_space Text.lstrip]. intros E. rewrite E. reflexivity.
Qed.

Lemma rstrip_id s : ends_with_space s = false -> Text.rstrip s = s.
Proof.
  induction s as [| c s IH]; [reflexivity |].
  destruct s as [| c' s'].
  - cbn. intros E. rewrite E. reflexivity.
  - intros E. change (ends_with_space (String c' s') = false) in E.
    cbn [Text.rstrip] in *. rewrite (IH E). cbn [Text.is_empty].
    rewrite andb_false_r. reflexivity.
Qed.

Lemma strip_clean s :
  starts_with_space (Text.strip s) = false /\ ends_with_space (Text.strip s) = false.
Proof.
  unfold Text.strip. split.
  - apply rstrip_keeps_lead, lstrip_no_lead.
  - apply rstrip_no_trail.
Qed.

Lemma strip_idempotent s : Text.strip (Text.strip s) = Text.strip s.
Proof.
  destruct (strip_clean s) as [Hl Hr].
  unfold Text.strip at 1. rewrite (lstrip_id _ Hl). apply rstrip_id, Hr.
Qed.





(** The no-break space and the next-line character are whitespace, and the
    letters with accents have a lower case. *)
Example strip_beyond_ascii :
  Text.strip (no_break_space +:+ "user" +:+ next_line) = "user" /\
  _validate_role (VStr (no_break_space +:+ "User")) = Ret "user" /\
  _validate_content (VStr no_break_space) = Raise (Exn ValueError "content must not be empty") /\
  resolved_key (Ret (<["HONCHO_API_KEY" := no_break_space]> ∅)) = None /\
  Text.lower (String (ascii_of_N 201) "") = String (ascii_of_N 233) "" /\
  Text.upper (String (ascii_of_N 223) "a") = "SSA".
Proof. repeat split; vm_compute; reflexivity. Qed.

(** ** Validation *)

(** X1: a content that [_validate_content] accepts is a text; what it returns
    is that text stripped: not empty, with no whitespace at either end, and
    accepted unchanged when validated again. *)
Theorem validate_content_normal (content : value) (c : string) :
  _validate_content content = Ret c ->
  (exists s, content = VStr s /\ c = Text.strip s) /\
  Text.is_empty c = false /\
  starts_with_space c = false /\
  ends_with_space c = false /\
  _validate_content (VStr c) = Ret c.
Proof.
  destruct content; try discriminate. cbn [_validate_content].
  destruct (Text.is_empty (Text.strip s)) eqn:E; [discriminate |].
  intros H. injection H as <-.
  destruct (strip_clean s) as [Hl Hr].
  repeat split; try assumption.
  - exists s. split; reflexivity.
  - rewrite strip_idempotent, E. reflexivity.
Qed.

Lemma validate_content_normal_witness :
  ends_with_space "hi there" = false /\
  _validate_content (VStr "hi there") = Ret "hi there".
Proof.
  pose proof (validate_content_normal (VStr "  hi there ") "hi there" eq_refl)
    as (_ & _ & _ & H1 & H2).
  split; [exact H1 | exact H2].
Defined.

(** X2: a role that [_validate_role] returns is "user" or "assistant", comes
    from a text, and is returned unchanged when validated again. *)
Theorem validate_role_range (role : value) (r : string) :
  _validate_role role = Ret r ->
  (r = "user" \/ r = "assistant") /\
  (exists s, role = VStr s /\ r = Text.lower (Text.strip s)) /\
  _validate_role (VStr r) = Ret r.
Proof.
  destruct role; try discriminate. cbn [_validate_role].
  destruct (in_roles (Text.lower (Text.strip s))) eqn:E; [| discriminate].
  cbn [negb]. intros H. injection H as <-.
  pose proof (in_roles_cases _ E) as Hr.
  split; [exact Hr |]. split; [exists s; split; reflexivity |].
  destruct Hr as [-> | ->]; reflexivity.
Qed.

Lemma validate_role_range_witness : _validate_role (VStr "user") = Ret "user".
Proof.
  pose proof (validate_role_range (VStr " USER ") "user" eq_refl) as (_ & _ & H).
  exact H.
Defined.

(** ** Content extraction *)

Lemma wrap_truthy k n s :
  Text.is_empty s = false -> truthy (wrap k n (VStr s)) = true.
Proof. intros H. destruct n; cbn; [rewrite H |]; reflexivity. Qed.

Lemma lookup_chain_wrap k v :
  is_content_key k -> truthy v = true -> lookup_chain [(k, v)] = v.
Proof.
  intros [-> | [-> | ->]] H; unfold lookup_chain, py_or; cbn; rewrite ?H; reflexivity.
Qed.

Lemma extract_loop_wrap k s fuel n :
  is_content_key k -> Text.is_empty s = false ->
  extract_loop fuel (wrap k n (VStr s))
  = if (n <=? fuel)%nat then s else py_str (wrap k (n - fuel) (VStr s)).
Proof.
  intros Hk Hs. revert n. induction fuel as [| fuel IH]; intros n.
  - destruct n; [reflexivity |]. reflexivity.
  - destruct n as [| n]; [reflexivity |].
    cbn [wrap]. rewrite extract_loop_dict.
    rewrite (lookup_chain_wrap k _ Hk (wrap_truthy k n s Hs)).
    assert (Hn : is_None (wrap k n (VStr s)) = false) by (destruct n; reflexivity).
    rewrite Hn, IH. reflexivity.
Qed.

(** X3: a text that is not empty, under [n] nested dicts of one of the keys
    [content], [text], [message], is found when [n <= 10]; under more than 10
    the result is the string form of the dict that is left at level 10. *)
Theorem extract_content_depth (k s : string) (n : nat) :
  is_content_key k -> Text.is_empty s = false ->
  _extract_content (wrap k n (VStr s))
  = if (n <=? 10)%nat then s else py_str (wrap k (n - 10) (VStr s)).
Proof. intros Hk Hs. apply extract_loop_wrap; assumption. Qed.

Lemma extract_content_depth_witness :
  _extract_content (wrap "text" 10 (VStr "hello")) = "hello" /\
  _extract_content (wrap "text" 11 (VStr "hello")) = "{'text': 'hello'}".
Proof.
  split.
  - exact (extract_content_depth "text" "hello" 10 (or_intror (or_introl eq_refl)) eq_refl).
  - exact (extract_content_depth "text" "hello" 11 (or_intror (or_introl eq_refl)) eq_refl).
Defined.

(** ** Configuration values *)





Example config_value_samples :
  fst (get_config_value "honcho_api_key" "none" world_configured) = Ret "hc_key" /\
  fst (get_user_id world_configured) = Ret "user".
Proof. split; vm_compute; reflexivity. Qed.

(** ** Session identifiers *)

Lemma of_Z_inj a b : Text.of_Z a = Text.of_Z b -> a = b.
Proof.
  unfold Text.of_Z. intros H.
  assert (Hn : forall z, Z.to_int z <> Decimal.Pos Decimal.Nil /\
                         Z.to_int z <> Decimal.Neg Decimal.Nil).
  { intros [| p | p]; cbn; split; try discriminate;
      intros E; injection E as E; exact (Unsigned.to_uint_nonnil p E). }
  apply DecimalZ.to_int_inj.
  assert (E : Some (Z.to_int a) = Some (Z.to_int b)).
  { rewrite <- (NilZero.isi (Z.to_int a)), <- (NilZero.isi (Z.to_int b));
      try apply Hn. rewrite H. reflexivity. }
  injection E as E. exact E.
Qed.

Lemma session_id_chat ctx i :
  conversation_id ctx = Some i -> get_session_id ctx = "chat-" +:+ py_str i.
Proof.
  unfold conversation_id, get_session_id.
  destruct (context_id ctx) as [j |]; [| discriminate].
  destruct (truthy j); [| discriminate]. intros H. injection H as ->. reflexivity.
Qed.

Lemma session_id_fallback ctx :
  conversation_id ctx = None ->
  get_session_id ctx = "session-" +:+ Text.of_Z (context_addr ctx).
Proof.
  unfold conversation_id, get_session_id.
  destruct (context_id ctx) as [j |]; [| reflexivity].
  destruct (truthy j); [discriminate | reflexivity].
Qed.

(** X5: the session id tells conversations apart by the string form of the
    context's id when it has a truthy one, whatever object carries it, and by
    the object's identity otherwise: without an id two context objects share a
    session exactly when they are the same object. An id-based session id is
    never an identity-based one. *)
Theorem session_id_separates (c1 c2 : AgentContext) :
  (forall i1 i2, conversation_id c1 = Some i1 -> conversation_id c2 = Some i2 ->
     (get_session_id c1 = get_session_id c2 <-> py_str i1 = py_str i2)) /\
  (conversation_id c1 = None -> conversation_id c2 = None ->
     (get_session_id c1 = get_session_id c2 <-> context_addr c1 = context_addr c2)) /\
  (forall i, conversation_id c1 = Some i -> conversation_id c2 = None ->
     get_session_id c1 <> get_session_id c2).
Proof.
  split; [| split].
  - intros i1 i2 H1 H2.
    rewrite (session_id_chat _ _ H1), (session_id_chat _ _ H2).
    split; intros H; [| rewrite H; reflexivity].
    cbn in H. injection H as H. exact H.
  - intros H1 H2.
    rewrite (session_id_fallback _ H1), (session_id_fallback _ H2).
    split; intros H; [| rewrite H; reflexivity].
    cbn in H. injection H as H. apply of_Z_inj. exact H.
  - intros i H1 H2.
    rewrite (session_id_chat _ _ H1), (session_id_fallback _ H2).
    cbn. discriminate.
Qed.

(** An integer id and the text of its digits give one session. *)
Example session_id_collision :
  get_session_id {| context_addr := 1; context_id := Some (VInt 7); _honcho := None |}
  = get_session_id {| context_addr := 2; context_id := Some (VStr "7"); _honcho := None |}.
Proof. reflexivity. Qed.

(** ** Prefixes and the log preview *)


Lemma prefix_cons n c s : Text.prefix (S n) (String c s) = String c (Text.prefix n s).
Proof. reflexivity. Qed.

Lemma prefix_length n s :
  String.length (Text.prefix n s) = Nat.min n (String.length s).
Proof.
  revert s. induction n as [| n IH]; intros s.
  - destruct s; reflexivity.
  - destruct s as [| c s]; [reflexivity |].
    rewrite prefix_cons. cbn [String.length]. rewrite IH. reflexivity.
Qed.





Example truncate_samples :
  _truncate "short" (Z.to_nat LOG_CONTENT_PREVIEW) = "short" /\
  _truncate "abcdefgh" 3 = "abc" +:+ truncated_mark.
Proof. split; reflexivity. Qed.

(** ** Client cache *)

(** X7: the client is memoized per workspace. A call that returns a client
    leaves it in the cache under its workspace, and the next call returns the
    same client after reading the store twice, without constructing one. A
    cached client is returned whatever key it was built with: a key that
    changed in the store is not picked up. *)
Theorem get_client_memoized (w : world) :
  (forall c w1, get_client w = (Ret (Some c), w1) ->
     _client_cache w1 !! workspace_of w = Some c /\
     get_client w1 = (Ret (Some c), secrets_read (secrets_read w1))) /\
  (forall c k, HONCHO_AVAILABLE w = true -> resolved_key (secrets w) = Some k ->
     _client_cache w !! workspace_of w = Some c ->
     get_client w = (Ret (Some c), secrets_read (secrets_read w))).
Proof.
  assert (Hhit : forall w c k, HONCHO_AVAILABLE w = true ->
            resolved_key (secrets w) = Some k ->
            _client_cache w !! workspace_of w = Some c ->
            get_client w = (Ret (Some c), secrets_read (secrets_read w))).
  { intros w0 c k Ha Hk Hc. rewrite get_client_eq, Ha, Hk. cbv zeta.
    rewrite Hc. reflexivity. }
  split; [| intros c k; apply Hhit].
  intros c w1 H. rewrite get_client_eq in H.
  destruct (HONCHO_AVAILABLE w) eqn:Ha; [| discriminate].
  destruct (resolved_key (secrets w)) as [k |] eqn:Hk; [| discriminate].
  cbv zeta in H.
  destruct (_client_cache w !! workspace_of w) as [c0 |] eqn:Hc.
  - injection H as <- <-. split; [exact Hc |].
    apply (Hhit _ c0 k); assumption.
  - destruct (honcho_new _ _ _ _); [discriminate |].
    injection H as <- <-.
    assert (Hin : (<[workspace_of w := Client k (workspace_of w)]> (_client_cache w))
                  !! workspace_of w = Some (Client k (workspace_of w)))
      by apply lookup_insert_eq.
    split; [exact Hin |].
    apply (Hhit _ _ k); [exact Ha | exact Hk | exact Hin].
Qed.

Lemma get_client_memoized_witness :
  fst (get_client world_configured) = Ret (Some (Client "hc_key" "agent-zero")) /\
  fst (get_client (snd (get_client world_configured)))
  = Ret (Some (Client "hc_key" "agent-zero")) /\
  get_client world_rotated_key
  = (Ret (Some (Client "old_key" "agent-zero")),
     secrets_read (secrets_read world_rotated_key)).
Proof.
  assert (H : get_client world_configured
              = (Ret (Some (Client "hc_key" "agent-zero")),
                 snd (get_client world_configured)))
    by (vm_compute; reflexivity).
  split; [rewrite H; reflexivity |]. split.
  - destruct (proj1 (get_client_memoized world_configured) _ _ H) as [_ E].
    rewrite E. reflexivity.
  - exact (proj2 (get_client_memoized world_rotated_key)
             (Client "old_key" "agent-zero") "hc_key" eq_refl eq_refl eq_refl).
Defined.

(** X8: [get_client] never raises and never touches the context. Without the
    SDK it returns [None] and does nothing. A call that returns [None] leaves
    the client cache as it was (a failed construction is not cached), no call
    removes or replaces an entry, and a client that is returned was in the
    cache or has just been built for the resolved workspace with the resolved
    key. *)
Theorem get_client_failure (w : world) :
  (exists r, fst (get_client w) = Ret r) /\
  context (snd (get_client w)) = context w /\
  (HONCHO_AVAILABLE w = false -> get_client w = (Ret None, w)) /\
  (fst (get_client w) = Ret None ->
   _client_cache (snd (get_client w)) = _client_cache w) /\
  (forall ws c, _client_cache w !! ws = Some c ->
                _client_cache (snd (get_client w)) !! ws = Some c) /\
  (forall c, fst (get_client w) = Ret (Some c) ->
             _client_cache w !! workspace_of w = Some c \/
             (_client_cache w !! workspace_of w = None /\
              client_workspace_id c = workspace_of w /\
              resolved_key (secrets w) = Some (client_api_key c))).
Proof.
  rewrite get_client_eq.
  destruct (HONCHO_AVAILABLE w) eqn:Ha.
  2: { repeat split; eauto; try discriminate. }
  destruct (resolved_key (secrets w)) as [k |] eqn:Hk.
  2: { repeat split; eauto; try discriminate. }
  cbv zeta.
  destruct (_client_cache w !! workspace_of w) as [c0 |] eqn:Hc.
  { repeat split; eauto; try discriminate.
    intros c H. injection H as <-. left. reflexivity. }
  destruct (honcho_new _ _ _ _).
  { repeat split; eauto; try discriminate. }
  repeat split; eauto; try discriminate.
  - intros ws c H. cbn. rewrite lookup_insert_ne; [exact H |].
    intros <-. rewrite Hc in H. discriminate.
  - intros c H. injection H as <-. right. repeat split.
Qed.

Example get_client_samples :
  fst (get_client world_no_key) = Ret None /\
  trace (snd (get_client world_configured)) = [LoadSecrets; LoadSecrets; NewClient "agent-zero"].
Proof. split; vm_compute; reflexivity. Qed.

(** ** Lazy initialisation: every path *)

Lemma same_context_refl w : same_context w w.
Proof. reflexivity. Qed.

Lemma same_context_trans w1 w2 w3 :
  same_context w1 w2 -> same_context w2 w3 -> same_context w1 w3.
Proof. unfold same_context. congruence. Qed.

Lemma keeps_honcho_refl w : keeps_honcho w w.
Proof. intros H. exact H. Qed.

Lemma keeps_honcho_trans w1 w2 w3 :
  keeps_honcho w1 w2 -> keeps_honcho w2 w3 -> keeps_honcho w1 w3.
Proof. unfold keeps_honcho. auto. Qed.

Lemma same_context_keeps {A} (m : M A) :
  preserves same_context m -> preserves keeps_honcho m.
Proof. intros H w Hh. unfold has_honcho. rewrite (H w). exact Hh. Qed.

Lemma same_context_sdk_call e answer : preserves same_context (sdk_call e answer).
Proof. apply preserves_sdk_call. reflexivity. Qed.

Lemma same_context_get_api_key : preserves same_context get_api_key.
Proof. intros w. rewrite get_api_key_eq. reflexivity. Qed.

Lemma same_context_load_secrets : preserves same_context load_secrets.
Proof. intros w. reflexivity. Qed.

Create HintDb context_db discriminated.
#[local] Hint Resolve same_context_sdk_call same_context_get_api_key
  same_context_load_secrets : context_db.

Ltac context_steps :=
  repeat first
    [ solve [auto 1 with context_db nocore]
    | preserves_step same_context_refl same_context_trans ].

Lemma same_context_get_config_value key d : preserves same_context (get_config_value key d).
Proof. unfold get_config_value. context_steps. Qed.

#[local] Hint Resolve same_context_get_config_value : context_db.

Lemma same_context_is_configured : preserves same_context is_configured.
Proof. unfold is_configured. context_steps. Qed.

Lemma same_context_get_client : preserves same_context get_client.
Proof.
  intros w. rewrite get_client_eq. unfold same_context.
  destruct (HONCHO_AVAILABLE w); [| reflexivity].
  destruct (resolved_key (secrets w)); [| reflexivity]. cbv zeta.
  destruct (_client_cache w !! workspace_of w); [reflexivity |].
  destruct (honcho_new _ _ _ _); reflexivity.
Qed.

Lemma get_client_no_raise w e : fst (get_client w) <> Raise e.
Proof.
  rewrite get_client_eq.
  destruct (HONCHO_AVAILABLE w); [| discriminate].
  destruct (resolved_key (secrets w)); [| discriminate]. cbv zeta.
  destruct (_client_cache w !! workspace_of w); [discriminate |].
  destruct (honcho_new _ _ _ _); discriminate.
Qed.

Lemma same_context_session_of sid : preserves same_context (session_of sid).
Proof. unfold session_of. context_steps. Qed.

Lemma same_context_peer_of p : preserves same_context (peer_of p).
Proof. unfold peer_of. context_steps. Qed.

Lemma same_context_add_peers s ps : preserves same_context (add_peers s ps).
Proof. unfold add_peers. context_steps. Qed.

#[local] Hint Resolve same_context_is_configured same_context_get_client
  same_context_session_of same_context_peer_of same_context_add_peers : context_db.

Lemma keeps_honcho_setitem k v : preserves keeps_honcho (honcho_setitem k v).
Proof.
  intros w H. unfold honcho_setitem.
  destruct (_honcho (context w)) eqn:E; [| exact H]. cbn. discriminate.
Qed.

Lemma honcho_setitem_ok k v w :
  has_honcho w ->
  exists h, _honcho (context w) = Some h /\
            honcho_setitem k v w
            = (Ret tt, set_context (set_honcho (<[k := v]> h) (context w)) w).
Proof.
  unfold has_honcho, honcho_setitem. intros H.
  destruct (_honcho (context w)) as [h |]; [| contradiction].
  exists h. split; reflexivity.
Qed.

Lemma honcho_attach_has w : has_honcho (snd (honcho_attach w)).
Proof.
  unfold honcho_attach, modify, has_honcho. cbn [snd].
  destruct (_honcho (context w)) eqn:E; [rewrite E |]; discriminate.
Qed.

(** the [try] block of [ensure_initialized] *)
Lemma init_block_keeps_honcho sid :
  preserves keeps_honcho
    (session <- session_of sid ;;
     user_id <- get_user_id ;;
     user_peer <- peer_of user_id ;;
     agent_peer <- peer_of "agent-zero" ;;
     try_except (add_peers session [user_peer; agent_peer])
                except_Exception (fun _ => ret tt) ;;
     honcho_setitem "enabled" (VBool true) ;;
     honcho_setitem "session_id" (VStr sid) ;;
     ret true).
Proof.
  unfold get_user_id.
  repeat first
    [ solve [apply same_context_keeps; auto 1 with context_db nocore]
    | apply keeps_honcho_setitem
    | preserves_step keeps_honcho_refl keeps_honcho_trans ].
Qed.

Lemma enabled_after_setitem_false h c w :
  _honcho c = Some h ->
  honcho_enabled (context (set_context (set_honcho (<["enabled" := VBool false]> h) c) w))
  = false.
Proof. intros _. unfold honcho_enabled. cbn. rewrite lookup_insert_eq. reflexivity. Qed.

Lemma ensure_initialized_no_raise w e : fst (ensure_initialized w) <> Raise e.
Proof.
  destruct (ensure_initialized w) as [r w'] eqn:E. cbn [fst]. intros ->.
  revert E.
  unfold ensure_initialized, bind at 1, read.
  destruct (honcho_enabled (context w)); [discriminate |].
  unfold bind at 1. rewrite is_configured_eq.
  destruct (HONCHO_AVAILABLE w); [| discriminate].
  destruct (has_key (resolved_key (secrets w))); [| discriminate].
  cbn [negb]. unfold bind at 1.
  pose proof (get_client_no_raise (secrets_read w)) as Hr.
  destruct (get_client (secrets_read w)) as [[[c |] | e'] w1];
    [| discriminate | exfalso; exact (Hr e' eq_refl)].
  unfold bind at 1.
  pose proof (honcho_attach_has w1) as Hh.
  change (honcho_attach w1) with (Ret tt, snd (honcho_attach w1)).
  set (w2 := snd (honcho_attach w1)) in *.
  unfold try_except.
  pose proof (init_block_keeps_honcho (get_session_id (context w)) w2 Hh) as Hh3.
  match goal with
  | |- context [let (_, _) := ?body w2 in _] =>
      change (has_honcho (snd (body w2))) in Hh3;
      destruct (body w2) as [[b | e'] w3] eqn:Hb
  end; cbn [snd] in Hh3; [discriminate |].
  cbn [except_Exception]. unfold bind.
  destruct (honcho_setitem_ok "enabled" (VBool false) w3 Hh3) as (h & _ & ->).
  discriminate.
Qed.

(** X9: [ensure_initialized] never raises, and the boolean it returns is the
    mark it leaves on the context: [True] with [enabled] truthy, [False] with
    the side-channel absent or [enabled] falsy. *)
Theorem ensure_initialized_result (w : world) :
  exists b, fst (ensure_initialized w) = Ret b /\
            honcho_enabled (context (snd (ensure_initialized w))) = b.
Proof.
  destruct (ensure_initialized w) as [r w'] eqn:E. cbn [fst snd].
  destruct r as [[|] | e].
  - exists true. split; [reflexivity |]. apply (ensure_initialized_enabled w w' E).
  - exists false. split; [reflexivity |]. revert E.
    unfold ensure_initialized, bind at 1, read.
    destruct (honcho_enabled (context w)) eqn:He; [discriminate |].
    unfold bind at 1. rewrite is_configured_eq.
    destruct (HONCHO_AVAILABLE w) eqn:Ha; [| intros H; injection H as <-; exact He].
    destruct (has_key (resolved_key (secrets w))) eqn:Hk;
      [| intros H; injection H as <-; exact He].
    cbn [negb]. unfold bind at 1.
    pose proof (same_context_get_client (secrets_read w)) as Hc.
    destruct (get_client (secrets_read w)) as [[[c |] | e] w1].
    3: { intros H. discriminate H. }
    2: { intros H. injection H as <-. unfold same_context in Hc. cbn [snd] in Hc.
         rewrite Hc. exact He. }
    unfold bind at 1.
    pose proof (honcho_attach_has w1) as Hh.
    change (honcho_attach w1) with (Ret tt, snd (honcho_attach w1)).
    set (w2 := snd (honcho_attach w1)) in *.
    unfold try_except.
    pose proof (init_block_keeps_honcho (get_session_id (context w)) w2 Hh) as Hh3.
    match goal with
    | |- context [let (_, _) := ?body w2 in _] =>
        change (has_honcho (snd (body w2))) in Hh3;
        destruct (body w2) as [[b | e] w3] eqn:Hb
    end; cbn [snd] in Hh3.
    + intros H. injection H as -> <-.
      apply bind_Ret in Hb as (? & ? & _ & Hb).
      apply bind_Ret in Hb as (? & ? & _ & Hb).
      apply bind_Ret in Hb as (? & ? & _ & Hb).
      apply bind_Ret in Hb as (? & ? & _ & Hb).
      apply bind_Ret in Hb as (? & ? & _ & Hb).
      apply bind_Ret in Hb as (? & ? & _ & Hb).
      apply bind_Ret in Hb as (? & ? & _ & Hb).
      discriminate Hb.
    + cbn [except_Exception]. unfold bind.
      destruct (honcho_setitem_ok "enabled" (VBool false) w3 Hh3) as (h & Hh' & ->).
      unfold ret. intros H. injection H as <-.
      apply (enabled_after_setitem_false h _ _ Hh').
  - exfalso. apply (ensure_initialized_no_raise w e). rewrite E. reflexivity.
Qed.

(** ** Without configuration *)

Lemma is_configured_false w :
  fst (is_configured w) = Ret false ->
  is_configured w = (Ret false, snd (is_configured w)) /\
  (snd (is_configured w) = w \/ snd (is_configured w) = secrets_read w).
Proof.
  rewrite is_configured_eq.
  destruct (HONCHO_AVAILABLE w); cbn [fst snd].
  - intros H. injection H as ->. auto.
  - auto.
Qed.

Lemma ensure_initialized_unconfigured w :
  honcho_enabled (context w) = false ->
  fst (is_configured w) = Ret false ->
  ensure_initialized w = (Ret false, snd (is_configured w)).
Proof.
  intros He Hc. destruct (is_configured_false w Hc) as [E _].
  unfold ensure_initialized, bind at 1, read. rewrite He.
  rewrite (bind_eq _ _ _ _ _ E). reflexivity.
Qed.

(** X10: on a context that is not marked enabled, without configuration
    (SDK or key missing), the three operations of the helper do nothing:
    [ensure_initialized] and [sync_message] return [False] and
    [get_user_context] returns [None]; the world afterwards is the world
    before, or differs by one read of the secret store in the trace. *)
Theorem unconfigured_noop (role content max_tokens : value) (w : world) :
  honcho_enabled (context w) = false ->
  fst (is_configured w) = Ret false ->
  (snd (is_configured w) = w \/ snd (is_configured w) = secrets_read w) /\
  ensure_initialized w = (Ret false, snd (is_configured w)) /\
  get_user_context max_tokens w = (Ret None, snd (is_configured w)) /\
  (forall r c, _validate_role role = Ret r -> _validate_content content = Ret c ->
               sync_message role content w = (Ret false, snd (is_configured w))).
Proof.
  intros He Hc.
  pose proof (ensure_initialized_unconfigured w He Hc) as E.
  split; [apply (is_configured_false w Hc) |]. split; [exact E |]. split.
  - unfold get_user_context. cbv zeta. rewrite (bind_eq _ _ _ _ _ E). reflexivity.
  - intros r c Hr Hv. unfold sync_message.
    unfold bind at 1, try_except, lift. rewrite Hr.
    unfold bind at 1. rewrite Hv. unfold bind at 1, ret.
    rewrite (bind_eq _ _ _ _ _ E). reflexivity.
Qed.

Lemma unconfigured_noop_witness :
  ensure_initialized world_no_key = (Ret false, secrets_read world_no_key) /\
  get_user_context (VInt 500) world_no_key = (Ret None, secrets_read world_no_key) /\
  sync_message (VStr "user") (VStr "hello") world_no_key
  = (Ret false, secrets_read world_no_key).
Proof.
  pose proof (unconfigured_noop (VStr "user") (VStr "hello") (VInt 500) world_no_key
                eq_refl eq_refl) as (_ & H1 & H2 & H3).
  split; [exact H1 |]. split; [exact H2 |].
  exact (H3 "user" "hello" eq_refl eq_refl).
Defined.

(** ** [sync_message]: what the caller sees *)

Lemma validate_content_raises content e :
  _validate_content content = Raise e ->
  except_classes [ValueError; TypeError] e = true.
Proof.
  destruct content; cbn [_validate_content];
    try (intros H; injection H as <-; reflexivity).
  destruct (Text.is_empty (Text.strip s)); [| discriminate].
  intros H. injection H as <-. reflexivity.
Qed.

Lemma validate_content_blank s :
  Text.all_chars Text.is_space s = true ->
  exists msg, _validate_content (VStr s) = Raise (Exn ValueError msg).
Proof.
  intros H. cbn [_validate_content]. rewrite strip_empty, H. eexists. reflexivity.
Qed.

(** X11: with a text role [sync_message] never raises, whatever the content,
    the configuration and the remote service do: every failure, the
    exhausted retries included, comes back as [False]. *)
Theorem sync_message_no_raise (s : string) (content : value) (w : world) :
  exists b, fst (sync_message (VStr s) content w) = Ret b.
Proof.
  unfold sync_message. unfold bind at 1, try_except at 1.
  unfold bind at 1, lift at 1.
  destruct (_validate_role (VStr s)) as [r | e] eqn:Hr.
  2: { destruct (in_roles (Text.lower (Text.strip s))) eqn:Hin.
       - rewrite (validate_role_accepts s Hin) in Hr. discriminate.
       - destruct (validate_role_rejects s Hin) as [msg Hm]. rewrite Hm in Hr.
         injection Hr as <-. exists false. reflexivity. }
  unfold bind at 1, lift at 1.
  destruct (_validate_content content) as [c | e] eqn:Hv.
  2: { rewrite (validate_content_raises content e Hv). exists false. reflexivity. }
  cbn [ret]. unfold bind at 1.
  pose proof (ensure_initialized_no_raise w) as Hi.
  destruct (ensure_initialized w) as [[[|] | e] w1];
    [| exists false; reflexivity | exfalso; exact (Hi e eq_refl)].
  cbn [negb]. unfold bind at 1.
  pose proof (get_client_no_raise w1) as Hc.
  destruct (get_client w1) as [[[cl |] | e] w2];
    [| exists false; reflexivity | exfalso; exact (Hc e eq_refl)].
  unfold try_except.
  match goal with
  | |- context [let (_, _) := ?body w2 in _] => destruct (body w2) as [[b | e] w3]
  end.
  - exists b. reflexivity.
  - exists false. reflexivity.
Qed.

(** X12: an empty or all-whitespace content makes [sync_message] return
    [False] with the world as it was, for every text role that is valid: no
    initialisation, no secret read, no SDK call. *)
Theorem sync_message_blank (s content : string) (w : world) :
  in_roles (Text.lower (Text.strip s)) = true ->
  Text.all_chars Text.is_space content = true ->
  sync_message (VStr s) (VStr content) w = (Ret false, w).
Proof.
  intros Hr Hb. destruct (validate_content_blank content Hb) as [msg Hm].
  unfold sync_message, bind, try_except, lift.
  rewrite (validate_role_accepts s Hr), Hm. reflexivity.
Qed.

Lemma sync_message_blank_witness :
  sync_message (VStr "user") (VStr "   ") world_configured = (Ret false, world_configured).
Proof. exact (sync_message_blank "user" "   " world_configured eq_refl eq_refl). Defined.

(** ** What an operation adds to the trace *)

Section Appends.

Variable Q : event -> Prop.

Lemma appends_refl w : appends Q w w.
Proof. exists []. split; [symmetry; apply app_nil_r | constructor]. Qed.

Lemma appends_trans w1 w2 w3 : appends Q w1 w2 -> appends Q w2 w3 -> appends Q w1 w3.
Proof.
  intros (t1 & E1 & F1) (t2 & E2 & F2). exists (t1 ++ t2)%list. split.
  - rewrite E2, E1, app_assoc. reflexivity.
  - apply Forall_app. split; assumption.
Qed.

Lemma appends_event e w : Q e -> appends Q w (set_trace (trace w ++ [e]) w).
Proof. intros H. exists [e]. split; [reflexivity | repeat constructor; exact H]. Qed.

Lemma appends_same_trace w w' : trace w' = trace w -> appends Q w w'.
Proof. intros H. exists []. split; [rewrite H; symmetry; apply app_nil_r | constructor]. Qed.

Lemma appends_sdk_call e answer : Q e -> preserves (appends Q) (sdk_call e answer).
Proof. intros H. apply preserves_sdk_call. intros w. apply appends_event, H. Qed.

Lemma appends_setitem k v : preserves (appends Q) (honcho_setitem k v).
Proof.
  intros w. apply appends_same_trace. unfold honcho_setitem.
  destruct (_honcho (context w)); reflexivity.
Qed.

Lemma appends_attach : preserves (appends Q) honcho_attach.
Proof.
  intros w. apply appends_same_trace. unfold honcho_attach, modify. cbn [snd].
  destruct (_honcho (context w)); reflexivity.
Qed.

(** The retried function is called some number of times: what each call
    and each sleep adds is in [Q]. *)
Lemma appends_retry_loop {A} (fn : M A) attempts :
  (forall d, Q (TimeSleep d)) -> preserves (appends Q) fn ->
  forall last_exc delay w,
    appends Q w (snd (fst (retry_loop sleep fn attempts last_exc delay w))).
Proof.
  intros Hs Hfn. induction attempts as [| attempt rest IH]; intros last_exc delay w.
  - apply appends_refl.
  - cbn [retry_loop]. specialize (Hfn w).
    destruct (fn w) as [[a | exc] w1]; cbn [snd] in Hfn; [exact Hfn |].
    destruct (attempt <? _RETRY_ATTEMPTS).
    + specialize (IH (Some exc) (PrimFloat.mul delay 2%float) (sleep delay w1)).
      destruct (retry_loop sleep fn rest (Some exc) (PrimFloat.mul delay 2%float)
                  (sleep delay w1)) as [[r w2] acts].
      cbn [fst snd] in *.
      eapply appends_trans; [exact Hfn |].
      eapply appends_trans; [| exact IH].
      exists [TimeSleep delay]. split; [reflexivity | repeat constructor; apply Hs].
    + specialize (IH (Some exc) delay w1).
      destruct (retry_loop sleep fn rest (Some exc) delay w1) as [[r w2] acts].
      cbn [fst snd] in *.
      eapply appends_trans; [exact Hfn | exact IH].
Qed.

Hypothesis Q_no_text : forall e, no_text e -> Q e.

Lemma appends_plain_call e answer : no_text e -> preserves (appends Q) (sdk_call e answer).
Proof. intros H. apply appends_sdk_call, Q_no_text, H. Qed.

Lemma appends_load_secrets : preserves (appends Q) load_secrets.
Proof. intros w. apply appends_event, Q_no_text. reflexivity. Qed.

Lemma appends_get_api_key : preserves (appends Q) get_api_key.
Proof. intros w. rewrite get_api_key_eq. apply appends_event, Q_no_text. reflexivity. Qed.

Ltac appends_steps :=
  repeat first
    [ solve [apply appends_plain_call; reflexivity]
    | apply appends_load_secrets
    | apply appends_get_api_key
    | apply appends_setitem
    | apply appends_attach
    | solve [apply preserves_modify; intros ?; apply appends_same_trace; reflexivity]
    | preserves_step appends_refl appends_trans ].

Lemma appends_get_config_value key d : preserves (appends Q) (get_config_value key d).
Proof. unfold get_config_value. appends_steps. Qed.

Lemma appends_is_configured : preserves (appends Q) is_configured.
Proof. unfold is_configured. appends_steps. Qed.

Lemma appends_get_client : preserves (appends Q) get_client.
Proof.
  unfold get_client, Honcho.
  repeat first [apply appends_get_config_value | progress appends_steps].
Qed.

Lemma appends_ensure_initialized : preserves (appends Q) ensure_initialized.
Proof.
  unfold ensure_initialized, session_of, peer_of, add_peers, get_user_id.
  repeat first
    [ apply appends_get_config_value | apply appends_is_configured
    | apply appends_get_client | progress appends_steps ].
Qed.

Lemma appends_get_user_context max_tokens :
  preserves (appends Q) (get_user_context max_tokens).
Proof.
  unfold get_user_context, session_of, time_time. cbv zeta.
  repeat first
    [ apply appends_ensure_initialized | apply appends_get_client
    | progress appends_steps ].
  intros w. apply appends_event, Q_no_text. reflexivity.
Qed.

End Appends.

Lemma no_text_capped e : no_text e -> texts_capped e.
Proof. unfold no_text, texts_capped. intros ->. constructor. Qed.

Lemma prefix_capped n s : (String.length (Text.prefix n s) <= n)%nat.
Proof. rewrite prefix_length. apply Nat.le_min_l. Qed.

Lemma appends_push_body sid p c :
  preserves (appends texts_capped) (push_message_body sid p c).
Proof.
  intros w.
  unfold push_message_body, session_of, message_of, add_messages, sdk_call, bind, ret.
  cbv beta.
  assert (Hc : forall x, texts_capped
                 (PeerMessage x (Text.prefix (Z.to_nat MAX_MESSAGE_LENGTH) c)))
    by (intros x; constructor; [apply prefix_capped | constructor]).
  assert (Ha : forall x y, texts_capped
                 (AddMessages x [(y, Text.prefix (Z.to_nat MAX_MESSAGE_LENGTH) c)]))
    by (intros x y; constructor; [apply prefix_capped | constructor]).
  assert (Hs : texts_capped (ClientSession sid)) by constructor.
  destruct (client_session _ _ _).
  { eexists. split; [reflexivity |]. constructor; [exact Hs | constructor]. }
  destruct (peer_message _ _ _ _).
  { eexists. split; [cbn [trace set_trace]; rewrite <- app_assoc; reflexivity |].
    constructor; [exact Hs |]. constructor; [apply Hc | constructor]. }
  destruct (session_add_messages _ _ _ _);
    (eexists; split; [cbn [trace set_trace]; rewrite <- !app_assoc; reflexivity |];
     constructor; [exact Hs |]; constructor; [apply Hc |];
     constructor; [apply Ha | constructor]).
Qed.

Lemma appends_push_message sid p c :
  preserves (appends texts_capped) (_push_message sid p c).
Proof.
  intros w. unfold _push_message, _retry.
  apply appends_retry_loop; [intros d; constructor | apply appends_push_body].
Qed.

(** X13: [sync_message] only adds to the trace, and no message text it hands
    to the SDK has more than [MAX_MESSAGE_LENGTH] (10000) characters, at any
    attempt: a trace whose texts are within the bound stays so. *)
Theorem sync_message_capped (role content : value) (w : world) :
  (exists tr, trace (snd (sync_message role content w)) = (trace w ++ tr)%list /\
              Forall texts_capped tr) /\
  (capped (trace w) -> capped (trace (snd (sync_message role content w)))).
Proof.
  assert (H : appends texts_capped w (snd (sync_message role content w))).
  { revert w. change (preserves (appends texts_capped) (sync_message role content)).
    unfold sync_message, peer_of, get_user_id.
    repeat first
      [ apply (appends_ensure_initialized _ no_text_capped)
      | apply (appends_get_client _ no_text_capped)
      | apply (appends_get_config_value _ no_text_capped)
      | apply appends_push_message
      | solve [apply (appends_plain_call _ no_text_capped); reflexivity]
      | preserves_step (appends_refl texts_capped) (appends_trans texts_capped) ]. }
  split; [exact H |].
  destruct H as (tr & E & F). intros Hc. rewrite E.
  apply Forall_app. split; [exact Hc | exact F].
Qed.

Example sync_message_trace :
  fst (sync_message (VStr "assistant") (VStr " Hello ") world_enabled) = Ret true /\
  trace (snd (sync_message (VStr "assistant") (VStr " Hello ") world_enabled))
  = [LoadSecrets; LoadSecrets; NewClient "agent-zero"; LoadSecrets;
     ClientPeer "agent-zero"; ClientSession "chat-7";
     PeerMessage "agent-zero" "Hello"; AddMessages "chat-7" [("agent-zero", "Hello")]].
Proof. split; vm_compute; reflexivity. Qed.

(** X14: initialisation, client lookup and context retrieval only add to the
    trace, and nothing they add carries a message text: they never create a
    message on the remote service. *)
Theorem reads_create_no_message (max_tokens : value) (w : world) :
  appends no_text w (snd (ensure_initialized w)) /\
  appends no_text w (snd (get_client w)) /\
  appends no_text w (snd (get_user_context max_tokens w)).
Proof.
  split; [| split].
  - apply (appends_ensure_initialized no_text (fun _ H => H)).
  - apply (appends_get_client no_text (fun _ H => H)).
  - apply (appends_get_user_context no_text (fun _ H => H)).
Qed.

(** ** The context cache: write, read, clear *)

Lemma same_context_remote_query sid : preserves same_context (remote_query sid).
Proof.
  unfold remote_query, session_of.
  repeat first
    [ solve [auto 1 with context_db nocore]
    | preserves_step same_context_refl same_context_trans ].
Qed.

Lemma session_id_not_empty ctx : Text.is_empty (get_session_id ctx) = false.
Proof.
  unfold get_session_id.
  destruct (context_id ctx) as [i |]; [destruct (truthy i) |]; reflexivity.
Qed.

(** X15: a value that [get_user_context] has fetched and stored is what the
    next call returns while the clock has not moved (for a clock [t] with
    [t - t < 120], that is any finite time), whatever its [max_tokens], and
    that call leaves the world as it is: no secret read, no SDK call. *)
Theorem user_context_store_then_hit (m m' : value) (w w1 w2 : world) (c : client)
        (rctx : remote_context) :
  ensure_initialized w = (Ret true, w1) ->
  cache_hit (get_session_id (context w)) w = None ->
  get_client w1 = (Ret (Some c), w2) ->
  fst (remote_query (get_session_id (context w)) w2) = Ret rctx ->
  PrimFloat.ltb (PrimFloat.sub (clock w) (clock w)) CONTEXT_CACHE_TTL = true ->
  get_user_context m' (snd (get_user_context m w))
  = (Ret (context_result rctx), snd (get_user_context m w)).
Proof.
  intros Hinit Hmiss Hc Hq Hfin.
  pose proof (ensure_initialized_stable _ _ _ Hinit) as Hst1.
  pose proof (get_client_stable _ _ _ Hc) as Hst2.
  pose proof (get_user_context_eq m w w1 Hinit) as E.
  rewrite (stable_session_id _ _ Hst1), (stable_cache_hit _ _ _ Hst1), Hmiss, Hc in E.
  rewrite fetch_and_cache_eq in E.
  set (sid := get_session_id (context w)) in *.
  pose proof (stable_remote_query sid w2) as Hst3.
  pose proof (same_context_remote_query sid w2) as Hsc3.
  pose proof (same_context_get_client w1) as Hsc2. rewrite Hc in Hsc2.
  destruct (remote_query sid w2) as [[r | e] w3]; [| discriminate Hq].
  cbn [fst snd] in *. injection Hq as ->.
  assert (Hst : stable w w3)
    by (eapply stable_trans; [eapply stable_trans |]; eassumption).
  rewrite E. cbn [snd].
  set (w' := set_context_cache _ w3).
  assert (Hctx : context w' = context w1).
  { unfold same_context in *. change (context w') with (context w3). congruence. }
  assert (Hen : honcho_enabled (context w') = true)
    by (rewrite Hctx; apply (ensure_initialized_enabled w w1 Hinit)).
  rewrite (get_user_context_eq m' w' w' (ensure_initialized_short w' Hen)).
  assert (Hsid : get_session_id (context w') = sid).
  { rewrite Hctx. apply (stable_session_id _ _ Hst1). }
  rewrite Hsid. unfold cache_hit.
  change (_context_cache w')
    with (<[sid := (clock w3, context_result rctx)]> (_context_cache w3)).
  rewrite lookup_insert_eq.
  change (clock w') with (clock w3). rewrite (stable_clock _ _ Hst), Hfin.
  reflexivity.
Qed.

Lemma user_context_store_then_hit_witness :
  get_user_context (VInt 1) (snd (get_user_context (VInt 500) world_expired))
  = (Ret (Some "Likes Python"), snd (get_user_context (VInt 500) world_expired)).
Proof.
  assert (H1 : ensure_initialized world_expired = (Ret true, world_expired))
    by (vm_compute; reflexivity).
  assert (H2 : cache_hit (get_session_id (context world_expired)) world_expired = None)
    by (vm_compute; reflexivity).
  assert (Hc : get_client world_expired
               = (Ret (Some (Client "hc_key" "agent-zero")), snd (get_client world_expired)))
    by (vm_compute; reflexivity).
  assert (H4 : fst (remote_query (get_session_id (context world_expired))
                      (snd (get_client world_expired)))
               = Ret (RemoteContext (Some "Likes Python") None))
    by (vm_compute; reflexivity).
  assert (H5 : PrimFloat.ltb (PrimFloat.sub (clock world_expired) (clock world_expired))
                 CONTEXT_CACHE_TTL = true)
    by (vm_compute; reflexivity).
  exact (user_context_store_then_hit (VInt 500) (VInt 1) world_expired world_expired
           (snd (get_client world_expired)) (Client "hc_key" "agent-zero")
           (RemoteContext (Some "Likes Python") None) H1 H2 Hc H4 H5).
Defined.

(** X16: [clear_context_cache] with a session id that is not empty removes
    that entry and no other; with [None] or the empty text it empties the
    cache. Nothing but the context cache changes, and no cleared session has
    a cache hit afterwards. *)
Theorem clear_context_cache_spec (session_id : option string) (w : world) :
  fst (clear_context_cache session_id w) = Ret tt /\
  snd (clear_context_cache session_id w)
  = set_context_cache (_context_cache (snd (clear_context_cache session_id w))) w /\
  (forall sid, session_id = Some sid -> Text.is_empty sid = false ->
     _context_cache (snd (clear_context_cache session_id w))
     = delete sid (_context_cache w) /\
     cache_hit sid (snd (clear_context_cache session_id w)) = None /\
     forall other, other <> sid ->
       cache_hit other (snd (clear_context_cache session_id w)) = cache_hit other w) /\
  (session_id = None \/ session_id = Some "" ->
     _context_cache (snd (clear_context_cache session_id w)) = ∅ /\
     forall sid, cache_hit sid (snd (clear_context_cache session_id w)) = None).
Proof.
  unfold clear_context_cache.
  destruct session_id as [[| ch s] |]; cbn [attr_truthy or_none Text.is_empty modify fst snd].
  - split; [reflexivity |]. split; [reflexivity |]. split.
    + intros sid H He. injection H as <-. discriminate He.
    + intros _. split; reflexivity.
  - split; [reflexivity |]. split; [reflexivity |]. split.
    + intros sid H _. injection H as <-. split; [reflexivity |]. split.
      * unfold cache_hit. cbn [_context_cache set_context_cache].
        rewrite lookup_delete_eq. reflexivity.
      * intros other Hne. unfold cache_hit. cbn [_context_cache set_context_cache clock].
        rewrite lookup_delete_ne by congruence. reflexivity.
    + intros [H | H]; discriminate H.
  - split; [reflexivity |]. split; [reflexivity |]. split.
    + intros sid H. discriminate H.
    + intros _. split; reflexivity.
Qed.

(** X17: clearing the session's entry (or the whole cache) forces a refetch:
    on an enabled context with a client, the next [get_user_context] runs
    the remote fetch even when the entry was younger than the TTL. *)
Theorem clear_then_fetch (session_id : option string) (m : value) (w w2 : world)
        (c : client) :
  honcho_enabled (context w) = true ->
  session_id = None \/ session_id = Some (get_session_id (context w)) ->
  get_client (snd (clear_context_cache session_id w)) = (Ret (Some c), w2) ->
  get_user_context m (snd (clear_context_cache session_id w))
  = fetch_and_cache (get_session_id (context w)) w2.
Proof.
  intros Hen Hs Hc.
  set (w' := snd (clear_context_cache session_id w)) in *.
  assert (Hctx : context w' = context w).
  { unfold w', clear_context_cache.
    destruct (attr_truthy session_id); reflexivity. }
  assert (Hmiss : cache_hit (get_session_id (context w)) w' = None).
  { unfold w', clear_context_cache, cache_hit.
    destruct Hs as [-> | ->]; unfold attr_truthy, or_none.
    - cbn [snd modify _context_cache set_context_cache].
      rewrite lookup_empty. reflexivity.
    - rewrite session_id_not_empty.
      cbn [snd modify _context_cache set_context_cache].
      rewrite lookup_delete_eq. reflexivity. }
  assert (Hen' : honcho_enabled (context w') = true) by (rewrite Hctx; exact Hen).
  rewrite (get_user_context_eq m w' w' (ensure_initialized_short w' Hen')).
  rewrite Hctx, Hmiss, Hc. reflexivity.
Qed.

Lemma clear_then_fetch_witness :
  fst (get_user_context (VInt 500) world_cached) = Ret (Some "Likes Python") /\
  trace (snd (get_user_context (VInt 500)
                (snd (clear_context_cache (Some "chat-7") world_cached))))
  = [LoadSecrets; LoadSecrets; NewClient "agent-zero"; ClientSession "chat-7";
     GetContext "chat-7"].
Proof.
  split; [vm_compute; reflexivity |].
  assert (Hc : get_client (snd (clear_context_cache (Some "chat-7") world_cached))
               = (Ret (Some (Client "hc_key" "agent-zero")),
                  snd (get_client (snd (clear_context_cache (Some "chat-7") world_cached)))))
    by (vm_compute; reflexivity).
  rewrite (clear_then_fetch (Some "chat-7") (VInt 500) world_cached _ _
             eq_refl (or_intror eq_refl) Hc).
  vm_compute. reflexivity.
Defined.

(** ** Lazy initialisation: the session *)

Lemma session_of_ok sid w :
  client_session (sdk w) (trace w) sid = None ->
  session_of sid w = (Ret sid, set_trace (trace w ++ [ClientSession sid]) w).
Proof. intros H. unfold session_of, bind, sdk_call, ret. rewrite H. reflexivity. Qed.

Lemma session_of_fail sid w e :
  client_session (sdk w) (trace w) sid = Some e ->
  session_of sid w = (Raise e, set_trace (trace w ++ [ClientSession sid]) w).
Proof. intros H. unfold session_of, bind, sdk_call, ret. rewrite H. reflexivity. Qed.

Lemma peer_of_ok p w :
  client_peer (sdk w) (trace w) p = None ->
  peer_of p w = (Ret p, set_trace (trace w ++ [ClientPeer p]) w).
Proof. intros H. unfold peer_of, bind, sdk_call, ret. rewrite H. reflexivity. Qed.

Lemma add_peers_swallowed s ps w :
  try_except (add_peers s ps) except_Exception (fun _ => ret tt) w
  = (Ret tt, set_trace (trace w ++ [AddPeers s ps]) w).
Proof.
  unfold try_except, add_peers, sdk_call.
  destruct (session_add_peers (sdk w) (trace w) s ps); reflexivity.
Qed.

Lemma get_user_id_eq w :
  get_user_id w
  = (Ret (config_value "HONCHO_USER_ID" DEFAULT_USER_ID (secrets w)), secrets_read w).
Proof. unfold get_user_id. apply get_config_value_eq. reflexivity. Qed.

Lemma honcho_setitem_eq k v w h :
  _honcho (context w) = Some h ->
  honcho_setitem k v w = (Ret tt, set_context (set_honcho (<[k := v]> h) (context w)) w).
Proof. intros H. unfold honcho_setitem. rewrite H. reflexivity. Qed.

Lemma is_configured_true w :
  fst (is_configured w) = Ret true -> is_configured w = (Ret true, secrets_read w).
Proof.
  rewrite is_configured_eq. destruct (HONCHO_AVAILABLE w); [| discriminate].
  cbn [fst]. intros H. injection H as ->. reflexivity.
Qed.

(** The world in which the [try] block of [ensure_initialized] starts. *)
Lemma honcho_attach_facts w :
  sdk (snd (honcho_attach w)) = sdk w /\
  trace (snd (honcho_attach w)) = trace w /\
  _honcho (context (snd (honcho_attach w))) = Some (default ∅ (_honcho (context w))).
Proof.
  unfold honcho_attach, modify. cbn [snd].
  destruct (_honcho (context w)) as [h |] eqn:E; repeat split; try reflexivity.
  exact E.
Qed.

(** X18: on a configured context that is not yet enabled, once the client is
    there: when [client.session] raises, [ensure_initialized] returns [False]
    and leaves the side-channel attached with [enabled] set to [False]; when
    it returns and the two peers are obtained, the result is [True] with
    [enabled] and the derived [session_id] recorded, whether [add_peers]
    returns or raises. *)
Theorem ensure_initialized_session (w w1 : world) (c : client) :
  honcho_enabled (context w) = false ->
  fst (is_configured w) = Ret true ->
  get_client (secrets_read w) = (Ret (Some c), w1) ->
  (forall e, client_session (sdk w) (trace w1) (get_session_id (context w)) = Some e ->
     fst (ensure_initialized w) = Ret false /\
     _honcho (context (snd (ensure_initialized w)))
     = Some (<["enabled" := VBool false]> (default ∅ (_honcho (context w))))) /\
  (client_session (sdk w) (trace w1) (get_session_id (context w)) = None ->
   (forall tr p, client_peer (sdk w) tr p = None) ->
     fst (ensure_initialized w) = Ret true /\
     _honcho (context (snd (ensure_initialized w)))
     = Some (<["session_id" := VStr (get_session_id (context w))]>
               (<["enabled" := VBool true]> (default ∅ (_honcho (context w)))))).
Proof.
  intros He Hcfg Hc.
  pose proof (get_client_stable _ _ _ Hc) as Hst.
  pose proof (same_context_get_client (secrets_read w)) as Hsc.
  rewrite Hc in Hsc. unfold same_context in Hsc. cbn [snd] in Hsc.
  change (context (secrets_read w)) with (context w) in Hsc.
  pose proof (is_configured_true w Hcfg) as Hic.
  assert (E : ensure_initialized w
              = try_except
                  (session <- session_of (get_session_id (context w)) ;;
                   user_id <- get_user_id ;;
                   user_peer <- peer_of user_id ;;
                   agent_peer <- peer_of "agent-zero" ;;
                   try_except (add_peers session [user_peer; agent_peer])
                              except_Exception (fun _ => ret tt) ;;
                   honcho_setitem "enabled" (VBool true) ;;
                   honcho_setitem "session_id" (VStr (get_session_id (context w))) ;;
                   ret true)
                  except_Exception
                  (fun _ => honcho_setitem "enabled" (VBool false) ;; ret false)
                  (snd (honcho_attach w1))).
  { unfold ensure_initialized, bind at 1, read. rewrite He.
    rewrite (bind_eq _ _ _ _ _ Hic). cbn [negb].
    rewrite (bind_eq _ _ _ _ _ Hc). reflexivity. }
  destruct (honcho_attach_facts w1) as (Hsdk & Htr & Hh).
  rewrite (stable_sdk _ _ Hst) in Hsdk. change (sdk (secrets_read w)) with (sdk w) in Hsdk.
  rewrite Hsc in Hh.
  set (sid := get_session_id (context w)) in *.
  set (h0 := default ∅ (_honcho (context w))) in *.
  remember (snd (honcho_attach w1)) as w2 eqn:Hw2. clear Hw2.
  rewrite E. clear E.
  split.
  - intros e Hs. rewrite <- Hsdk, <- Htr in Hs.
    match goal with
    | |- fst ?run = _ /\ _ =>
        assert (R : exists W, run = (Ret false, W) /\
                      _honcho (context W) = Some (<["enabled" := VBool false]> h0))
    end.
    { eexists. split.
      - unfold try_except. unfold bind at 1. rewrite (session_of_fail sid w2 e Hs).
        cbn [except_Exception]. unfold bind, ret.
        erewrite honcho_setitem_eq by exact Hh. reflexivity.
      - reflexivity. }
    destruct R as (W & -> & HW). split; [reflexivity | exact HW].
  - intros Hs Hp. rewrite <- Hsdk, <- Htr in Hs.
    assert (Hp2 : forall tr p, client_peer (sdk w2) tr p = None)
      by (intros tr p; rewrite Hsdk; apply Hp).
    match goal with
    | |- fst ?run = _ /\ _ =>
        assert (R : exists W, run = (Ret true, W) /\
                      _honcho (context W)
                      = Some (<["session_id" := VStr sid]>
                                (<["enabled" := VBool true]> h0)))
    end.
    { eexists. split.
      - unfold try_except at 1.
        unfold bind at 1. rewrite (session_of_ok sid w2 Hs).
        unfold bind at 1. rewrite get_user_id_eq.
        unfold bind at 1. erewrite peer_of_ok by apply Hp2.
        unfold bind at 1. erewrite peer_of_ok by apply Hp2.
        unfold bind at 1. rewrite add_peers_swallowed.
        unfold bind at 1. erewrite honcho_setitem_eq by exact Hh.
        unfold bind at 1. erewrite honcho_setitem_eq by reflexivity.
        reflexivity.
      - reflexivity. }
    destruct R as (W & -> & HW). split; [reflexivity | exact HW].
Qed.

Lemma ensure_initialized_session_witness :
  (fst (ensure_initialized (with_sdk remote_down world_configured)) = Ret false /\
   _honcho (context (snd (ensure_initialized (with_sdk remote_down world_configured))))
   = Some (<["enabled" := VBool false]> ∅)) /\
  fst (ensure_initialized world_configured) = Ret true.
Proof.
  assert (Hd : get_client (secrets_read (with_sdk remote_down world_configured))
               = (Ret (Some (Client "hc_key" "agent-zero")),
                  snd (get_client (secrets_read (with_sdk remote_down world_configured)))))
    by (vm_compute; reflexivity).
  assert (Hu : get_client (secrets_read world_configured)
               = (Ret (Some (Client "hc_key" "agent-zero")),
                  snd (get_client (secrets_read world_configured))))
    by (vm_compute; reflexivity).
  split.
  - exact (proj1 (ensure_initialized_session (with_sdk remote_down world_configured)
                    _ _ eq_refl eq_refl Hd)
             (Exn RuntimeError "connection refused") eq_refl).
  - exact (proj1 (proj2 (ensure_initialized_session world_configured _ _
                           eq_refl eq_refl Hu)
                    eq_refl (fun _ _ => eq_refl))).
Defined.

(** ** The hooks *)

Lemma get_helper_cases h :
  (fst (_get_helper h) = false /\ snd (_get_helper h) = h) \/
  (fst (_get_helper h) = true /\ _helper_module (snd (_get_helper h)) = true).
Proof.
  unfold _get_helper. destruct (_helper_module h) eqn:E.
  - right. split; [reflexivity | exact E].
  - destruct (helper_file (helper_world h)); auto.
Qed.

Lemma validate_stripped s :
  Text.is_empty (Text.strip s) = false ->
  _validate_content (VStr (Text.strip s)) = Ret (Text.strip s).
Proof. intros H. cbn [_validate_content]. rewrite strip_idempotent, H. reflexivity. Qed.

Lemma hook_role_valid kwargs : _validate_role (VStr (hook_role kwargs)) = Ret (hook_role kwargs).
Proof. unfold hook_role. destruct (truthy _); reflexivity. Qed.

Lemma kwargs_get_absent kwargs k d :
  (forall v, ~ In (k, v) kwargs) -> kwargs_get kwargs k d = d.
Proof.
  induction kwargs as [| [k' v'] rest IH]; intros H; [reflexivity |].
  cbn [kwargs_get]. destruct (String.eqb k' k) eqn:E.
  - apply String.eqb_eq in E. subst k'. exfalso. apply (H v'). left. reflexivity.
  - apply IH. intros v Hin. apply (H v). right. exact Hin.
Qed.

(** X19: the history-sync hook never raises. It does nothing when the
    extracted text is empty once stripped, or when the helper cannot be
    loaded. Otherwise it runs [sync_message] with the stripped text and the
    role "assistant" or "user" by the truthiness of [ai]; both pass the
    validation of [sync_message], so the hook never reaches its error for a
    role that is not a text. *)
Theorem sync_hook (kwargs : list (string * value)) (h : hook) :
  fst (HonchoSync.execute kwargs h) = Ret tt /\
  (Text.is_empty (hook_content kwargs) = true ->
   HonchoSync.execute kwargs h = (Ret tt, h)) /\
  (fst (_get_helper h) = false -> HonchoSync.execute kwargs h = (Ret tt, h)) /\
  (Text.is_empty (hook_content kwargs) = false -> fst (_get_helper h) = true ->
   snd (HonchoSync.execute kwargs h)
   = snd (in_helper (sync_message (VStr (hook_role kwargs)) (VStr (hook_content kwargs)))
            (snd (_get_helper h))) /\
   _validate_role (VStr (hook_role kwargs)) = Ret (hook_role kwargs) /\
   _validate_content (VStr (hook_content kwargs)) = Ret (hook_content kwargs)).
Proof.
  unfold HonchoSync.execute. cbv zeta.
  fold (hook_content kwargs). fold (hook_role kwargs).
  destruct (Text.is_empty (hook_content kwargs)) eqn:Ec.
  - split; [reflexivity |]. split; [reflexivity |]. split.
    + reflexivity.
    + intros H. discriminate H.
  - destruct (get_helper_cases h) as [[Hf Hs] | [Hf Hs]].
    + destruct (_get_helper h) as [b h1]. cbn [fst snd] in *. subst b h1. cbn [negb].
      split; [reflexivity |]. split; [intros H; discriminate H |].
      split; [reflexivity |]. intros _ H. discriminate H.
    + destruct (_get_helper h) as [b h1]. cbn [fst snd] in *. subst b. cbn [negb].
      destruct (in_helper (sync_message (VStr (hook_role kwargs))
                             (VStr (hook_content kwargs))) h1) as [[b | e] h2].
      * split; [reflexivity |]. split; [intros H; discriminate H |].
        split; [intros H; discriminate H |]. intros _ _.
        split; [reflexivity |]. split; [apply hook_role_valid |].
        apply validate_stripped. exact Ec.
      * split; [reflexivity |]. split; [intros H; discriminate H |].
        split; [intros H; discriminate H |]. intros _ _.
        split; [reflexivity |]. split; [apply hook_role_valid |].
        apply validate_stripped. exact Ec.
Qed.

Lemma sync_hook_witness :
  HonchoSync.execute [("content_data", VDict [("content", VStr "  ")]); ("ai", VBool true)]
    hook_fresh
  = (Ret tt, hook_fresh) /\
  _validate_content (VStr (hook_content [("content_data", VStr " Hello ")])) = Ret "Hello".
Proof.
  split.
  - exact (proj1 (proj2 (sync_hook [("content_data", VDict [("content", VStr "  ")]);
                                     ("ai", VBool true)] hook_fresh)) eq_refl).
  - exact (proj2 (proj2 (proj2 (proj2 (proj2 (sync_hook [("content_data", VStr " Hello ")]
                                                 hook_fresh))) eq_refl eq_refl))).
Defined.

(** X20: a call of the history-sync hook without [content_data] takes the
    default [{}]: no key is found, the dict is stringified, and the text
    "{}" is what the hook hands to [sync_message]. *)
Theorem sync_hook_missing_content (kwargs : list (string * value)) (h : hook) :
  (forall v, ~ In ("content_data", v) kwargs) ->
  hook_content kwargs = "{}" /\
  (fst (_get_helper h) = true ->
   snd (HonchoSync.execute kwargs h)
   = snd (in_helper (sync_message (VStr (hook_role kwargs)) (VStr "{}"))
            (snd (_get_helper h)))).
Proof.
  intros Habs.
  assert (Hc : hook_content kwargs = "{}").
  { unfold hook_content. rewrite (kwargs_get_absent _ _ _ Habs). reflexivity. }
  split; [exact Hc |]. intros Hh.
  unfold HonchoSync.execute. cbv zeta.
  fold (hook_content kwargs). fold (hook_role kwargs). rewrite Hc.
  cbn [Text.is_empty].
  destruct (_get_helper h) as [b h1]. cbn [fst snd] in *. subst b. cbn [negb].
  destruct (in_helper (sync_message (VStr (hook_role kwargs)) (VStr "{}")) h1)
    as [[b | e] h2]; reflexivity.
Qed.

Lemma sync_hook_missing_content_witness :
  trace (helper_world (snd (HonchoSync.execute [("ai", VBool false)] hook_fresh)))
  = [LoadSecrets; LoadSecrets; NewClient "agent-zero"; LoadSecrets; ClientPeer "user";
     ClientSession "chat-7"; PeerMessage "user" "{}"; AddMessages "chat-7" [("user", "{}")]].
Proof.
  assert (Habs : forall v, ~ In ("content_data", v) [("ai", VBool false)]).
  { intros v [H | []]. discriminate H. }
  rewrite (proj2 (sync_hook_missing_content [("ai", VBool false)] hook_fresh Habs) eq_refl).
  vm_compute. reflexivity.
Defined.

Lemma get_user_context_no_raise m w e : fst (get_user_context m w) <> Raise e.
Proof.
  pose proof (ensure_initialized_no_raise w) as Hi.
  destruct (ensure_initialized w) as [[[|] | e'] w1] eqn:E.
  - rewrite (get_user_context_eq m w w1 E).
    destruct (cache_hit _ w1); [discriminate |].
    pose proof (get_client_no_raise w1) as Hc.
    destruct (get_client w1) as [[[c |] | e'] w2];
      [| discriminate | exfalso; exact (Hc e' eq_refl)].
    rewrite fetch_and_cache_eq.
    destruct (remote_query _ w2) as [[r | e'] w3]; discriminate.
  - unfold get_user_context. cbv zeta. rewrite (bind_eq _ _ _ _ _ E). discriminate.
  - exfalso. exact (Hi e' eq_refl).
Qed.

Lemma format_template_not_empty c : Text.is_empty (HonchoContext.format_template c) = false.
Proof. reflexivity. Qed.

(** X21: the prompt hook never raises. Without the helper it returns the
    empty text and changes nothing. With it, the world afterwards is the one
    [get_user_context] leaves, and the fragment is the template around the
    stripped user context when that context is a text with a character that
    is not whitespace, and the empty text when it is [None], empty or all
    whitespace. *)
Theorem context_hook (h : hook) :
  (fst (_get_helper h) = false -> HonchoContext.execute h = (Ret "", h)) /\
  (fst (_get_helper h) = true ->
   snd (HonchoContext.execute h)
   = snd (in_helper (get_user_context (VInt 500)) (snd (_get_helper h))) /\
   exists user_context,
     fst (in_helper (get_user_context (VInt 500)) (snd (_get_helper h)))
     = Ret user_context /\
     fst (HonchoContext.execute h)
     = Ret (match user_context with
            | Some raw =>
                if Text.all_chars Text.is_space raw then ""
                else HonchoContext.format_template (Text.strip raw)
            | None => ""
            end)) /\
  (exists fragment, fst (HonchoContext.execute h) = Ret fragment).
Proof.
  unfold HonchoContext.execute.
  destruct (get_helper_cases h) as [[Hf Hs] | [Hf Hs]];
    destruct (_get_helper h) as [b h1]; cbn [fst snd] in *; subst b; cbn [negb].
  - subst h1. split; [reflexivity |]. split; [intros H; discriminate H |].
    exists "". reflexivity.
  - assert (Hnr : forall e, fst (in_helper (get_user_context (VInt 500)) h1) <> Raise e).
    { intros e. unfold in_helper.
      pose proof (get_user_context_no_raise (VInt 500) (helper_world h1) e) as H.
      destruct (get_user_context (VInt 500) (helper_world h1)) as [r w1]. exact H. }
    destruct (in_helper (get_user_context (VInt 500)) h1) as [[u | e] h2];
      [| exfalso; exact (Hnr e eq_refl)].
    assert (R : match attr_truthy u with
                | Some c =>
                    if negb (Text.is_empty (Text.strip c))
                    then (Ret (HonchoContext.format_template (Text.strip c)), h2)
                    else (Ret "", h2)
                | None => (Ret "", h2)
                end
                = (Ret (match u with
                        | Some raw =>
                            if Text.all_chars Text.is_space raw then ""
                            else HonchoContext.format_template (Text.strip raw)
                        | None => ""
                        end), h2)).
    { destruct u as [raw |]; [| reflexivity]. unfold attr_truthy, or_none.
      destruct (Text.is_empty raw) eqn:Er.
      - destruct raw; [reflexivity | discriminate Er].
      - rewrite strip_empty. destruct (Text.all_chars Text.is_space raw); reflexivity. }
    rewrite R. cbn [fst snd].
    split; [intros H; discriminate H |]. split.
    + intros _. split; [reflexivity |]. exists u. split; reflexivity.
    + eexists. reflexivity.
Qed.

Lemma context_hook_witness :
  fst (HonchoContext.execute hook_fresh)
  = Ret (HonchoContext.format_template "Likes Python") /\
  fst (HonchoContext.execute hook_blank_summary) = Ret "" /\
  HonchoContext.execute (Hook false (with_helper_file NoSpec world_enabled))
  = (Ret "", Hook false (with_helper_file NoSpec world_enabled)).
Proof.
  split; [| split].
  - destruct (proj1 (proj2 (context_hook hook_fresh)) eq_refl) as (_ & u & Hu & ->).
    vm_compute in Hu. injection Hu as <-. reflexivity.
  - destruct (proj1 (proj2 (context_hook hook_blank_summary)) eq_refl) as (_ & u & Hu & ->).
    vm_compute in Hu. injection Hu as <-. reflexivity.
  - exact (proj1 (context_hook (Hook false (with_helper_file NoSpec world_enabled))) eq_refl).
Defined.

(** The hook's result in terms of the block it runs in the new module. *)
Lemma init_execute_eq w :
  helper_file w = Loads ->
  fst (is_configured w) = Ret true ->
  forall c w1, get_client (secrets_read (new_module w)) = (Ret (Some c), w1) ->
  exists W,
    HonchoInit.execute w = (Ret tt, W) /\
    trace W = trace w1 /\
    _honcho (context W)
    = Some (<["session_id" := VStr (get_session_id (context w))]>
              (<["enabled" := VBool true]> (default ∅ (_honcho (context w))))).
Proof.
  intros Hl Hcfg c w1 Hc.
  pose proof (same_context_get_client (secrets_read (new_module w))) as Hsc.
  rewrite Hc in Hsc. unfold same_context in Hsc. cbn [snd] in Hsc.
  change (context (secrets_read (new_module w))) with (context w) in Hsc.
  assert (Hic : is_configured (new_module w) = (Ret true, secrets_read (new_module w))).
  { apply is_configured_true. rewrite is_configured_fst in *. exact Hcfg. }
  destruct (honcho_attach_facts w1) as (_ & Htr & Hh). rewrite Hsc in Hh.
  eexists. split; [| split].
  - unfold HonchoInit.execute, try_except, HonchoInit._load_helper.
    unfold bind at 1. rewrite Hl. cbn [negb].
    unfold HonchoInit.in_new_module. fold (new_module w).
    rewrite (bind_eq _ _ _ _ _ Hic). cbn [negb].
    rewrite (bind_eq _ _ _ _ _ Hc).
    unfold bind at 1, read at 1. rewrite Hsc.
    unfold bind at 1.
    change (honcho_attach w1) with (Ret tt, snd (honcho_attach w1)).
    cbv iota beta.
    unfold bind at 1. erewrite honcho_setitem_eq by exact Hh.
    erewrite honcho_setitem_eq by reflexivity.
    reflexivity.
  - cbn [trace set_context_cache set_client_cache set_context]. exact Htr.
  - reflexivity.
Qed.

(** X22: the init hook never raises and leaves the caches of the helper
    module as they were: the module it loads, with the client it may build,
    is dropped. When the helper loads, the key is configured and a client is
    obtained, it marks the context enabled with the derived session id
    without any session or peer call, and [ensure_initialized] on that
    context then returns [True] without doing anything: the session and the
    peers are not registered by either. *)
Theorem init_hook (w : world) :
  fst (HonchoInit.execute w) = Ret tt /\
  _client_cache (snd (HonchoInit.execute w)) = _client_cache w /\
  _context_cache (snd (HonchoInit.execute w)) = _context_cache w /\
  (helper_file w = Loads -> fst (is_configured w) = Ret true ->
   forall c w1, get_client (secrets_read (new_module w)) = (Ret (Some c), w1) ->
     trace (snd (HonchoInit.execute w)) = trace w1 /\
     _honcho (context (snd (HonchoInit.execute w)))
     = Some (<["session_id" := VStr (get_session_id (context w))]>
               (<["enabled" := VBool true]> (default ∅ (_honcho (context w))))) /\
     ensure_initialized (snd (HonchoInit.execute w))
     = (Ret true, snd (HonchoInit.execute w))).
Proof.
  split; [| split; [| split]].
  - unfold HonchoInit.execute, try_except.
    match goal with
    | |- fst (let (_, _) := ?m w in _) = _ => destruct (m w) as [[[] | e] w1]
    end; reflexivity.
  - unfold HonchoInit.execute, try_except, HonchoInit._load_helper.
    unfold bind at 1. destruct (helper_file w); cbn [negb]; try reflexivity.
    unfold HonchoInit.in_new_module.
    match goal with
    | |- context [let '(_, _) := ?m ?w0 in _] => destruct (m w0) as [[[] | e] w1]
    end; reflexivity.
  - unfold HonchoInit.execute, try_except, HonchoInit._load_helper.
    unfold bind at 1. destruct (helper_file w); cbn [negb]; try reflexivity.
    unfold HonchoInit.in_new_module.
    match goal with
    | |- context [let '(_, _) := ?m ?w0 in _] => destruct (m w0) as [[[] | e] w1]
    end; reflexivity.
  - intros Hl Hcfg c w1 Hc.
    destruct (init_execute_eq w Hl Hcfg c w1 Hc) as (W & -> & Htr & Hh).
    cbn [snd]. split; [exact Htr |]. split; [exact Hh |].
    apply ensure_initialized_short. unfold honcho_enabled. rewrite Hh.
    rewrite lookup_insert_ne by discriminate. rewrite lookup_insert_eq. reflexivity.
Qed.

Lemma init_hook_witness :
  trace (snd (HonchoInit.execute world_configured))
  = [LoadSecrets; LoadSecrets; LoadSecrets; NewClient "agent-zero"] /\
  ensure_initialized (snd (HonchoInit.execute world_configured))
  = (Ret true, snd (HonchoInit.execute world_configured)).
Proof.
  assert (Hc : get_client (secrets_read (new_module world_configured))
               = (Ret (Some (Client "hc_key" "agent-zero")),
                  snd (get_client (secrets_read (new_module world_configured)))))
    by (vm_compute; reflexivity).
  destruct (proj2 (proj2 (proj2 (init_hook world_configured))) eq_refl eq_refl _ _ Hc)
    as (Ht & _ & He).
  split; [| exact He].
  rewrite Ht. vm_compute. reflexivity.
Defined.

(** ** What [get_user_context] writes *)

Lemma context_result_not_empty rctx s :
  context_result rctx = Some s -> Text.is_empty s = false.
Proof.
  unfold context_result, attr_truthy, or_none.
  destruct (summary rctx) as [a |]; [destruct (Text.is_empty a) eqn:Ea |];
    try (intros H; injection H as <-; exact Ea);
    destruct (peer_representation rctx) as [b |]; try discriminate;
    destruct (Text.is_empty b) eqn:Eb; try discriminate;
    intros H; injection H as <-; exact Eb.
Qed.

(** X23: [get_user_context] never raises, and it writes the context cache in
    one way only: it leaves it as it was, or it sets the entry of the
    context's own session to the clock's time with a result that is [None] or
    a text that is not empty. No entry of another session is touched. *)
Theorem get_user_context_writes (max_tokens : value) (w : world) :
  (exists r, fst (get_user_context max_tokens w) = Ret r) /\
  (_context_cache (snd (get_user_context max_tokens w)) = _context_cache w \/
   exists r,
     fst (get_user_context max_tokens w) = Ret r /\
     (forall s, r = Some s -> Text.is_empty s = false) /\
     _context_cache (snd (get_user_context max_tokens w))
     = <[get_session_id (context w) := (clock w, r)]> (_context_cache w)).
Proof.
  split.
  { pose proof (get_user_context_no_raise max_tokens w) as H.
    destruct (fst (get_user_context max_tokens w)) as [r | e];
      [exists r; reflexivity | exfalso; exact (H e eq_refl)]. }
  destruct (ensure_initialized w) as [[[|] | e] w1] eqn:E.
  - pose proof (ensure_initialized_stable _ _ _ E) as Hst1.
    rewrite (get_user_context_eq max_tokens w w1 E).
    rewrite (stable_session_id _ _ Hst1).
    destruct (cache_hit _ w1).
    { left. apply (stable_context_cache _ _ Hst1). }
    destruct (get_client w1) as [[[c |] | e] w2] eqn:Hc;
      pose proof (get_client_stable _ _ _ Hc) as Hst2;
      try (left; cbn [snd]; rewrite (stable_context_cache _ _ Hst2);
           apply (stable_context_cache _ _ Hst1)).
    rewrite fetch_and_cache_eq.
    pose proof (stable_remote_query (get_session_id (context w)) w2) as Hst3.
    destruct (remote_query _ w2) as [[rctx | e] w3]; cbn [snd] in Hst3.
    + right. exists (context_result rctx). split; [reflexivity |].
      split; [intros s; apply context_result_not_empty |].
      cbn [snd _context_cache set_context_cache].
      rewrite (stable_clock _ _ Hst3), (stable_clock _ _ Hst2), (stable_clock _ _ Hst1).
      rewrite (stable_context_cache _ _ Hst3), (stable_context_cache _ _ Hst2),
        (stable_context_cache _ _ Hst1).
      reflexivity.
    + left. cbn [snd]. rewrite (stable_context_cache _ _ Hst3),
        (stable_context_cache _ _ Hst2). apply (stable_context_cache _ _ Hst1).
  - left. unfold get_user_context. cbv zeta. rewrite (bind_eq _ _ _ _ _ E).
    cbn [negb ret snd]. apply (stable_context_cache _ _ (ensure_initialized_stable _ _ _ E)).
  - left. unfold get_user_context. cbv zeta. unfold bind at 1. rewrite E.
    cbn [snd]. apply (stable_context_cache _ _ (ensure_initialized_stable _ _ _ E)).
Qed.

(** ** A push from end to end *)

Lemma retry_first_success {St A} (sl : float -> St -> St) (fn : St -> outcome A * St)
      s a s1 :
  fn s = (Ret a, s1) -> _retry sl fn s = (Ret a, s1, [Invoke]).
Proof.
  intros H. unfold _retry. rewrite attempts_123. cbn [retry_loop]. rewrite H. reflexivity.
Qed.

Lemma retry_all_fail {St A} (sl : float -> St -> St) (fn : St -> outcome A * St)
      s e1 s1 e2 s2 e3 s3 :
  fn s = (Raise e1, s1) ->
  fn (sl 0.5%float s1) = (Raise e2, s2) ->
  fn (sl 1%float s2) = (Raise e3, s3) ->
  fst (_retry sl fn s) = (Raise e3, s3).
Proof.
  intros H1 H2 H3. unfold _retry. rewrite attempts_123. cbn [retry_loop]. rewrite H1.
  change (1 <? _RETRY_ATTEMPTS) with true. cbv iota.
  change _RETRY_BASE_DELAY with 0.5%float. rewrite H2.
  change (2 <? _RETRY_ATTEMPTS) with true. cbv iota.
  change (PrimFloat.mul 0.5%float 2%float) with 1%float. rewrite H3.
  change (3 <? _RETRY_ATTEMPTS) with false. reflexivity.
Qed.

Lemma push_body_result sid p t w :
  (forall tr s, client_session (sdk w) tr s = None) ->
  (forall tr q x, peer_message (sdk w) tr q x = None) ->
  push_message_body sid p t w
  = (match session_add_messages (sdk w)
             (trace w ++ [ClientSession sid;
                          PeerMessage p (Text.prefix (Z.to_nat MAX_MESSAGE_LENGTH) t)])
             sid [(p, Text.prefix (Z.to_nat MAX_MESSAGE_LENGTH) t)]
     with
     | None => Ret tt
     | Some e => Raise e
     end,
     logged (push_events sid p t) w).
Proof.
  intros Hs Hm.
  unfold push_message_body, session_of, message_of, add_messages, sdk_call, bind, ret.
  cbv beta. rewrite Hs. cbn [sdk set_trace trace]. rewrite Hm.
  cbn [sdk set_trace trace]. unfold logged, push_events. cbv zeta.
  rewrite <- !app_assoc. cbn [app].
  destruct (session_add_messages _ _ _ _); reflexivity.
Qed.

(** The part of [sync_message] after validation, on an enabled context. *)
Lemma sync_message_enabled role content r t w c w2 :
  _validate_role role = Ret r ->
  _validate_content content = Ret t ->
  honcho_enabled (context w) = true ->
  get_client w = (Ret (Some c), w2) ->
  (forall tr p, client_peer (sdk w) tr p = None) ->
  sync_message role content w
  = match _push_message (get_session_id (context w)) (peer_for r w) t
            (logged [LoadSecrets; ClientPeer (peer_for r w)] w2) with
    | (Ret _, W) => (Ret true, W)
    | (Raise _, W) => (Ret false, W)
    end.
Proof.
  intros Hr Ht Hen Hc Hp.
  pose proof (get_client_stable _ _ _ Hc) as Hst.
  unfold sync_message. unfold bind at 1, try_except at 1, lift.
  unfold bind at 1. rewrite Hr. unfold bind at 1. rewrite Ht. cbn [ret].
  rewrite (bind_eq _ _ _ _ _ (ensure_initialized_short w Hen)). cbn [negb].
  rewrite (bind_eq _ _ _ _ _ Hc).
  unfold try_except. unfold bind at 1, read at 1.
  rewrite (stable_session_id _ _ Hst).
  unfold bind at 1. rewrite get_user_id_eq. rewrite (stable_secrets _ _ Hst).
  fold (peer_for r w).
  unfold bind at 1. erewrite peer_of_ok
    by (cbn [sdk secrets_read set_trace]; rewrite (stable_sdk _ _ Hst); apply Hp).
  unfold bind at 1.
  change (set_trace (trace (secrets_read w2) ++ [ClientPeer (peer_for r w)]) (secrets_read w2))
    with (set_trace ((trace w2 ++ [LoadSecrets]) ++ [ClientPeer (peer_for r w)]) w2).
  rewrite <- app_assoc. cbn [app]. fold (logged [LoadSecrets; ClientPeer (peer_for r w)] w2).
  destruct (_push_message _ _ _ _) as [[[] | e] W]; reflexivity.
Qed.

(** X24: on an enabled context with a client, when no SDK call fails, a
    message that passes validation is pushed once: [sync_message] returns
    [True] after one read of the user id, one peer lookup and one attempt
    (session, message, [add_messages]), as the configured user for the role
    "user" and as "agent-zero" otherwise, with the text cut to 10000
    characters and without sleeping. *)
Theorem sync_message_pushes_once (role content : value) (r t : string) (w w2 : world)
        (c : client) :
  _validate_role role = Ret r ->
  _validate_content content = Ret t ->
  honcho_enabled (context w) = true ->
  get_client w = (Ret (Some c), w2) ->
  remote_accepts (sdk w) ->
  sync_message role content w
  = (Ret true,
     logged (push_events (get_session_id (context w)) (peer_for r w) t)
       (logged [LoadSecrets; ClientPeer (peer_for r w)] w2)) /\
  clock (snd (sync_message role content w)) = clock w.
Proof.
  intros Hr Ht Hen Hc (Hs & Hp & Hm & Ha).
  pose proof (get_client_stable _ _ _ Hc) as Hst.
  rewrite (sync_message_enabled role content r t w c w2 Hr Ht Hen Hc Hp).
  unfold _push_message.
  set (W0 := logged [LoadSecrets; ClientPeer (peer_for r w)] w2).
  assert (Hsdk : sdk W0 = sdk w) by (apply (stable_sdk _ _ Hst)).
  assert (Hb : push_message_body (get_session_id (context w)) (peer_for r w) t W0
               = (Ret tt, logged (push_events (get_session_id (context w))
                                    (peer_for r w) t) W0)).
  { rewrite push_body_result by (intros; rewrite Hsdk; auto).
    rewrite Hsdk, Ha. reflexivity. }
  rewrite (retry_first_success sleep _ _ _ _ Hb). cbn [fst snd].
  split; [reflexivity |].
  change (clock w2 = clock w). apply (stable_clock _ _ Hst).
Qed.

Lemma sync_message_pushes_once_witness :
  trace (snd (sync_message (VStr "Assistant") (VStr " Hello ") world_enabled))
  = [LoadSecrets; LoadSecrets; NewClient "agent-zero"; LoadSecrets;
     ClientPeer "agent-zero"; ClientSession "chat-7";
     PeerMessage "agent-zero" "Hello"; AddMessages "chat-7" [("agent-zero", "Hello")]].
Proof.
  assert (Hc : get_client world_enabled
               = (Ret (Some (Client "hc_key" "agent-zero")), snd (get_client world_enabled)))
    by (vm_compute; reflexivity).
  assert (Ha : remote_accepts (sdk world_enabled)) by (repeat split).
  rewrite (proj1 (sync_message_pushes_once (VStr "Assistant") (VStr " Hello ")
                    "assistant" "Hello" world_enabled _ _ eq_refl eq_refl eq_refl Hc Ha)).
  vm_compute. reflexivity.
Defined.

(** X25: on an enabled context with a client, when [add_messages] always
    raises, [sync_message] makes the three attempts of the retry wrapper,
    sleeps 0.5 s and 1.0 s between them (the clock ends 1.5 s later), and
    returns [False]; the exception does not reach the caller. *)
Theorem sync_message_gives_up (role content : value) (r t : string) (w w2 : world)
        (c : client) (e : exn) :
  _validate_role role = Ret r ->
  _validate_content content = Ret t ->
  honcho_enabled (context w) = true ->
  get_client w = (Ret (Some c), w2) ->
  remote_rejects_messages (sdk w) e ->
  let attempt := push_events (get_session_id (context w)) (peer_for r w) t in
  sync_message role content w
  = (Ret false,
     logged attempt
       (sleep 1%float
          (logged attempt
             (sleep 0.5%float
                (logged attempt (logged [LoadSecrets; ClientPeer (peer_for r w)] w2)))))) /\
  clock (snd (sync_message role content w))
  = PrimFloat.add (PrimFloat.add (clock w) 0.5%float) 1%float.
Proof.
  intros Hr Ht Hen Hc (Hs & Hp & Hm & Ha) attempt.
  pose proof (get_client_stable _ _ _ Hc) as Hst.
  rewrite (sync_message_enabled role content r t w c w2 Hr Ht Hen Hc Hp).
  unfold _push_message.
  set (W0 := logged [LoadSecrets; ClientPeer (peer_for r w)] w2).
  assert (Hsdk : sdk W0 = sdk w) by (apply (stable_sdk _ _ Hst)).
  assert (Hb : forall W, sdk W = sdk w ->
             push_message_body (get_session_id (context w)) (peer_for r w) t W
             = (Raise e, logged attempt W)).
  { intros W HW. rewrite push_body_result by (intros; rewrite HW; auto).
    rewrite HW, Ha. reflexivity. }
  rewrite (retry_all_fail sleep _ W0 e _ e _ e _
             (Hb W0 Hsdk)
             (Hb (sleep 0.5%float (logged attempt W0)) Hsdk)
             (Hb (sleep 1%float (logged attempt (sleep 0.5%float (logged attempt W0))))
                 Hsdk)).
  split; [reflexivity |]. cbn [snd].
  change (PrimFloat.add (PrimFloat.add (clock w2) 0.5%float) 1%float
          = PrimFloat.add (PrimFloat.add (clock w) 0.5%float) 1%float).
  rewrite (stable_clock _ _ Hst). reflexivity.
Qed.

Lemma sync_message_gives_up_witness :
  fst (sync_message (VStr "user") (VStr "Hello") (with_sdk remote_full world_enabled))
  = Ret false /\
  clock (snd (sync_message (VStr "user") (VStr "Hello")
                (with_sdk remote_full world_enabled)))
  = 1001.5%float /\
  List.filter (fun ev => match ev with AddMessages _ _ | TimeSleep _ => true | _ => false end)
    (trace (snd (sync_message (VStr "user") (VStr "Hello")
                   (with_sdk remote_full world_enabled))))
  = [AddMessages "chat-7" [("user", "Hello")]; TimeSleep 0.5%float;
     AddMessages "chat-7" [("user", "Hello")]; TimeSleep 1%float;
     AddMessages "chat-7" [("user", "Hello")]].
Proof.
  assert (Hc : get_client (with_sdk remote_full world_enabled)
               = (Ret (Some (Client "hc_key" "agent-zero")),
                  snd (get_client (with_sdk remote_full world_enabled))))
    by (vm_compute; reflexivity).
  assert (Ha : remote_rejects_messages (sdk (with_sdk remote_full world_enabled))
                 (Exn RuntimeError "quota exceeded")) by (repeat split).
  rewrite (proj1 (sync_message_gives_up (VStr "user") (VStr "Hello") "user" "Hello"
                    (with_sdk remote_full world_enabled) _ _ _
                    eq_refl eq_refl eq_refl Hc Ha)).
  repeat split; vm_compute; reflexivity.
Defined.
